(** * infra/cifuzz/clusterfuzz_deployment.py

    A shallow embedding of the ClusterFuzz deployment module of CIFuzz and
    the properties its specification states about it.

    The module is effectful Python: it tests and creates directories, logs,
    and calls three collaborators (a filestore object, [http_utils] and
    [urllib.request]).  Its methods are embedded as computations in a state
    and exception monad over a [World] that holds the directories known to
    exist and the trace of every effect performed so far. *)

From Stdlib Require Import String Ascii List Bool Arith Lia.
From stdpp Require Import base decidable option list sets gmap strings.

Import ListNotations.
Local Open Scope list_scope.
Local Open Scope string_scope.

(** ** Python values *)

(** [bytes], as returned by [response.read()]. *)
Definition bytes := list Byte.byte.

(** Exception classes that occur in the module.  [OtherError name] is any
    other subclass of [Exception] a collaborator may raise; it is not a
    subclass of [urllib.error.HTTPError]. *)
Inductive ExnClass :=
| Exception
| NotImplementedError
| AttributeError
| HTTPError
| OtherError (name : string).

(** An exception instance: its class and [str(err)]. *)
Record exn := mk_exn { exn_class : ExnClass; exn_str : string }.

(** [isinstance(err, urllib.error.HTTPError)]. *)
Definition is_HTTPError (e : exn) : bool :=
  match exn_class e with
  | HTTPError => true
  | _ => false
  end.

(** [isinstance(err, Exception)]: every class above derives from
    [Exception]. *)
Definition is_Exception (e : exn) : bool := true.

(** The result of running a piece of Python: a value or a raised exception. *)
Inductive Outcome (A : Type) :=
| Ret (a : A)
| Raise (e : exn).
Arguments Ret {A} a.
Arguments Raise {A} e.

(** ** The world *)

Inductive Level := DEBUG | INFO | ERROR.

(** Every effect the module performs: directory creation, a log record, and
    one event per collaborator call, carrying the call's arguments. *)
Inductive Event :=
| EvMakedirs (path : string)
| EvLog (level : Level) (msg : string)
| EvFilestoreDownloadLatestBuild (name dst : string)
| EvFilestoreUploadLatestBuild (name src : string)
| EvFilestoreDownloadCorpus (name dst : string)
| EvFilestoreUploadCorpus (name src : string)
| EvDownloadAndUnpackZip (url dst : string)
| EvUrlopen (url : string).

(** [dirs] is the set of paths for which [os.path.exists] holds.  The module
    only ever tests paths it has itself created with [os.makedirs], so paths
    are compared as the strings [os.path.join] produced and intermediate
    directories are not tracked. *)
Record World := mk_World { dirs : gset string; trace : list Event }.

(** A collaborator call: it may look at the world it is called in, returns a
    result and leaves the file system in some state. *)
Definition Effect (R : Type) := World → R * gset string.

(** ** The monad *)

Definition M (A : Type) := World → Outcome A * World.

Definition ret {A} (a : A) : M A := λ w, (Ret a, w).

Definition raise {A} (e : exn) : M A := λ w, (Raise e, w).

Definition bind {A B} (m : M A) (k : A → M B) : M B :=
  λ w, match m w with
       | (Ret a, w') => k a w'
       | (Raise e, w') => (Raise e, w')
       end.

(** [try: m except <class selected by handles> as err: handler err]. *)
Definition try_except {A} (m : M A) (handles : exn → bool) (handler : exn → M A)
  : M A :=
  λ w, match m w with
       | (Ret a, w') => (Ret a, w')
       | (Raise e, w') => if handles e then handler e w' else (Raise e, w')
       end.

Notation "'let*' x ':=' m 'in' k" := (bind m (λ x, k))
  (at level 10, x name, m at level 100, k at level 200).
Notation "m ';;;' k" := (bind m (λ _, k))
  (at level 100, k at level 200, right associativity).

Definition record (ev : Event) (w : World) : World :=
  {| dirs := dirs w; trace := (trace w ++ [ev])%list |}.

(** A collaborator that reports through its return value. *)
Definition call {R} (ev : Event) (c : Effect R) : M R :=
  λ w, let '(r, d) := c w in (Ret r, {| dirs := d; trace := (trace w ++ [ev])%list |}).

(** A collaborator that may raise. *)
Definition call_raising {R} (ev : Event) (c : Effect (Outcome R)) : M R :=
  λ w, let '(r, d) := c w in (r, {| dirs := d; trace := (trace w ++ [ev])%list |}).

(** ** [os], [os.path] and [logging] *)

Module os.

(** [os.makedirs(path, exist_ok=True)]. *)
Definition makedirs (path : string) : M unit :=
  λ w, (Ret tt, {| dirs := {[ path ]} ∪ dirs w;
                 trace := (trace w ++ [EvMakedirs path])%list |}).

Module path.

(** [os.path.exists(path)]. *)
Definition exists_ (path : string) : M bool :=
  λ w, (Ret (bool_decide (path ∈ dirs w)), w).

Definition sep : string := "/".

(** [s.startswith(pre)]. *)
Fixpoint startswith (s pre : string) : bool :=
  match pre, s with
  | EmptyString, _ => true
  | String _ _, EmptyString => false
  | String a pre', String b s' => Ascii.eqb a b && startswith s' pre'
  end.

(** [s.endswith('/')]. *)
Fixpoint endswith_sep (s : string) : bool :=
  match s with
  | EmptyString => false
  | String c EmptyString => Ascii.eqb c "/"
  | String _ s' => endswith_sep s'
  end.

(** One round of the loop of [posixpath.join]. *)
Definition join_step (path b : string) : string :=
  if startswith b sep then b
  else if String.eqb path "" || endswith_sep path then path ++ b
  else path ++ sep ++ b.

(** [os.path.join(a, *p)]. *)
Definition join (a : string) (p : list string) : string :=
  fold_left join_step p a.

End path.
End os.

Module logging.
Definition debug (msg : string) : M unit := λ w, (Ret tt, record (EvLog DEBUG msg) w).
Definition info (msg : string) : M unit := λ w, (Ret tt, record (EvLog INFO msg) w).
Definition error (msg : string) : M unit := λ w, (Ret tt, record (EvLog ERROR msg) w).
End logging.

(** ** Configuration and collaborators *)

(** Modelled from the spec: [config.Platform] is declared outside this
    module; the spec gives it the two internal members the factory names and
    other members, all of which stand for the lite deployment. *)
Inductive Platform :=
| INTERNAL_GENERIC_CI
| INTERNAL_GITHUB
| OTHER_PLATFORM (member : string).

#[global] Instance Platform_eq_dec : EqDecision Platform.
Proof. solve_decision. Defined.

(** The attributes of [config] the module reads. *)
Record Config := mk_Config {
  project_name : string;
  sanitizer : string;
  platform : Platform }.

(** Modelled from the spec: the filestore object returned by
    [filestore_utils.get_filestore].  Its build operations report success as
    a boolean, its corpus operations may raise. *)
Module Filestore.
Record t := mk {
  download_latest_build : string → string → Effect bool;
  upload_latest_build : string → string → Effect bool;
  download_corpus : string → string → Effect (Outcome unit);
  upload_corpus : string → string → Effect (Outcome unit) }.
End Filestore.

(** What the module imports and does not define: the filestore factory,
    [http_utils.download_and_unpack_zip] (reports success as a boolean),
    [urllib.request.urlopen] (raises, or returns a response, which is
    represented by the bytes its [read()] gives), [bytes.decode] and the
    constant [utils.GCS_BASE_URL]. *)
Record Env := mk_Env {
  get_filestore : Config → Filestore.t;
  download_and_unpack_zip : string → string → Effect bool;
  urlopen : string → Effect (Outcome bytes);
  decode : bytes → Outcome string;
  GCS_BASE_URL : string }.

Module utils.
(** Modelled from the spec: [utils.url_join] joins its parts the way paths
    are joined, with a single slash between two parts. *)
Definition url_join (parts : list string) : string :=
  match parts with
  | [] => ""
  | a :: p => os.path.join a p
  end.
End utils.

(** ** class BaseClusterFuzzDeployment *)

Module BaseClusterFuzzDeployment.

Definition CORPUS_DIR_NAME : string := "cifuzz-corpus".
Definition BUILD_DIR_NAME : string := "cifuzz-latest-build".

Definition download_latest_build (parent_dir : string) : M (option string) :=
  raise (mk_exn NotImplementedError "Child class must implement method.").

Definition upload_latest_build (build_dir : string) : M bool :=
  raise (mk_exn NotImplementedError "Child class must implement method.").

Definition download_corpus (target_name parent_dir : string) : M string :=
  raise (mk_exn NotImplementedError "Child class must implement method.").

Definition get_corpus_dir (target_name parent_dir : string) : string :=
  os.path.join parent_dir [CORPUS_DIR_NAME; target_name].

Definition get_build_dir (parent_dir : string) : string :=
  os.path.join parent_dir [BUILD_DIR_NAME].

End BaseClusterFuzzDeployment.

(** ** class ClusterFuzzLite *)

Module ClusterFuzzLite.
Import BaseClusterFuzzDeployment.

Record t := mk { config : Config; filestore : Filestore.t }.

Definition BASE_BUILD_NAME : string := "cifuzz-build-".

Definition __init__ (env : Env) (config : Config) : t :=
  {| config := config; filestore := get_filestore env config |}.

Definition _get_build_name (self : t) : string :=
  BASE_BUILD_NAME ++ sanitizer (config self).

Definition _get_corpus_name (target_name : string) : string :=
  "corpus-" ++ target_name.

Definition download_latest_build (self : t) (parent_dir : string)
  : M (option string) :=
  let build_dir := get_build_dir parent_dir in
  let* found := os.path.exists_ build_dir in
  if (found : bool) then ret (Some build_dir)
  else
    os.makedirs build_dir;;;
    let build_name := _get_build_name self in
    let* ok := call (EvFilestoreDownloadLatestBuild build_name build_dir)
                 (Filestore.download_latest_build (filestore self)
                    build_name build_dir) in
    if (ok : bool) then ret (Some build_dir) else ret None.

Definition download_corpus (self : t) (target_name parent_dir : string)
  : M string :=
  let corpus_dir := get_corpus_dir target_name parent_dir in
  logging.debug ("ClusterFuzzLite: downloading corpus for " ++ target_name
                 ++ " to " ++ parent_dir ++ ".");;;
  os.makedirs corpus_dir;;;
  let corpus_name := _get_corpus_name target_name in
  try_except
    (call_raising (EvFilestoreDownloadCorpus corpus_name corpus_dir)
       (Filestore.download_corpus (filestore self) corpus_name corpus_dir))
    is_Exception
    (λ err,
       logging.error ("Failed to download corpus for target: " ++ target_name
                      ++ ". Error: " ++ exn_str err ++ ".");;;
       raise err);;;
  ret corpus_dir.

Definition upload_corpus (self : t) (target_name corpus_dir : string) : M unit :=
  logging.info ("Uploading corpus for " ++ target_name);;;
  let name := _get_corpus_name target_name in
  try_except
    (call_raising (EvFilestoreUploadCorpus name corpus_dir)
       (Filestore.upload_corpus (filestore self) name corpus_dir))
    is_Exception
    (λ error,
       logging.error ("Failed to upload corpus for target: " ++ target_name
                      ++ ". Error: " ++ exn_str error ++ ".")).

Definition upload_latest_build (self : t) (build_dir : string) : M bool :=
  let build_name := _get_build_name self in
  call (EvFilestoreUploadLatestBuild build_name build_dir)
    (Filestore.upload_latest_build (filestore self) build_name build_dir).

End ClusterFuzzLite.

(** ** class OSSFuzz *)

Module OSSFuzz.
Import BaseClusterFuzzDeployment.

Record t := mk { config : Config }.

Definition CLUSTERFUZZ_BUILDS : string := "clusterfuzz-builds".

(** [VERSION_STRING.format(project_name=..., sanitizer=...)]. *)
Definition VERSION_STRING (project_name sanitizer : string) : string :=
  project_name ++ "-" ++ sanitizer ++ "-latest.version".

Definition CORPUS_ZIP_NAME : string := "public.zip".

Definition __init__ (config : Config) : t := {| config := config |}.

Definition version_url (env : Env) (self : t) : string :=
  let version_file :=
    VERSION_STRING (project_name (config self)) (sanitizer (config self)) in
  utils.url_join [GCS_BASE_URL env; CLUSTERFUZZ_BUILDS;
                  project_name (config self); version_file].

Definition get_latest_build_name (env : Env) (self : t) : M (option string) :=
  let version_url := version_url env self in
  let* response :=
    try_except
      (let* body := call_raising (EvUrlopen version_url)
                      (urlopen env version_url) in
       ret (Some body))
      is_HTTPError
      (λ _,
         logging.error ("Error getting latest build version for "
                        ++ project_name (config self) ++ " from: "
                        ++ version_url ++ ".");;;
         ret None) in
  match response with
  | None => ret None
  | Some body =>
      match decode env body with
      | Ret text => ret (Some text)
      | Raise e => raise e
      end
  end.

Definition build_url (env : Env) (self : t) (latest_build_name : string)
  : string :=
  utils.url_join [GCS_BASE_URL env; CLUSTERFUZZ_BUILDS;
                  project_name (config self); latest_build_name].

Definition download_latest_build (env : Env) (self : t) (parent_dir : string)
  : M (option string) :=
  let build_dir := get_build_dir parent_dir in
  let* found := os.path.exists_ build_dir in
  if (found : bool) then ret (Some build_dir)
  else
    os.makedirs build_dir;;;
    let* latest_build_name := get_latest_build_name env self in
    (* [if not latest_build_name]: [None] or the empty string *)
    match latest_build_name with
    | None => ret None
    | Some name =>
        if String.eqb name "" then ret None
        else
          let oss_fuzz_build_url := build_url env self name in
          let* ok := call (EvDownloadAndUnpackZip oss_fuzz_build_url build_dir)
                       (download_and_unpack_zip env oss_fuzz_build_url
                          build_dir) in
          if (ok : bool) then ret (Some build_dir) else ret None
    end.

Definition upload_latest_build (self : t) (build_dir : string) : M bool :=
  raise (mk_exn Exception
           "upload_latest_build not should not be called for OSSFuzz.").

(** Lines 208 to 212 of [download_corpus]: the target name, prefixed with
    the project name and an underscore unless it already starts with them. *)
Definition project_qualified_fuzz_target_name (self : t) (target_name : string)
  : string :=
  let qualified_name_prefix := project_name (config self) ++ "_" in
  if negb (os.path.startswith target_name qualified_name_prefix)
  then qualified_name_prefix ++ target_name
  else target_name.

Definition corpus_url (env : Env) (self : t) (target_name : string) : string :=
  utils.url_join
    [GCS_BASE_URL env;
     project_name (config self)
       ++ "-backup.clusterfuzz-external.appspot.com/corpus/libFuzzer/";
     project_qualified_fuzz_target_name self target_name;
     CORPUS_ZIP_NAME].

Definition download_corpus (env : Env) (self : t)
  (target_name parent_dir : string) : M string :=
  let corpus_dir := get_corpus_dir target_name parent_dir in
  os.makedirs corpus_dir;;;
  let corpus_url := corpus_url env self target_name in
  call (EvDownloadAndUnpackZip corpus_url corpus_dir)
    (download_and_unpack_zip env corpus_url corpus_dir);;;
  ret corpus_dir.

End OSSFuzz.

(** ** Deployment objects and method calls *)

(** An instance of one of the two concrete classes. *)
Inductive Deployment :=
| LiteObject (self : ClusterFuzzLite.t)
| OSSFuzzObject (self : OSSFuzz.t).

(** [deployment.download_latest_build(parent_dir)]. *)
Definition download_latest_build (env : Env) (d : Deployment)
  (parent_dir : string) : M (option string) :=
  match d with
  | LiteObject self => ClusterFuzzLite.download_latest_build self parent_dir
  | OSSFuzzObject self => OSSFuzz.download_latest_build env self parent_dir
  end.

(** [deployment.upload_latest_build(build_dir)]. *)
Definition upload_latest_build (d : Deployment) (build_dir : string) : M bool :=
  match d with
  | LiteObject self => ClusterFuzzLite.upload_latest_build self build_dir
  | OSSFuzzObject self => OSSFuzz.upload_latest_build self build_dir
  end.

(** [deployment.download_corpus(target_name, parent_dir)]. *)
Definition download_corpus (env : Env) (d : Deployment)
  (target_name parent_dir : string) : M string :=
  match d with
  | LiteObject self => ClusterFuzzLite.download_corpus self target_name parent_dir
  | OSSFuzzObject self => OSSFuzz.download_corpus env self target_name parent_dir
  end.

(** [deployment.upload_corpus(target_name, corpus_dir)].  Only
    [ClusterFuzzLite] defines [upload_corpus]: neither [OSSFuzz] nor
    [BaseClusterFuzzDeployment] has the attribute, so looking it up on an
    [OSSFuzz] instance raises [AttributeError]. *)
Definition upload_corpus (d : Deployment) (target_name corpus_dir : string)
  : M unit :=
  match d with
  | LiteObject self => ClusterFuzzLite.upload_corpus self target_name corpus_dir
  | OSSFuzzObject _ =>
      raise (mk_exn AttributeError
               "'OSSFuzz' object has no attribute 'upload_corpus'")
  end.

(** ** The factory *)

Definition get_clusterfuzz_deployment (env : Env) (config : Config)
  : M Deployment :=
  if bool_decide (platform config = INTERNAL_GENERIC_CI)
     || bool_decide (platform config = INTERNAL_GITHUB)
  then
    logging.info "Using OSS-Fuzz as ClusterFuzz deployment.";;;
    ret (OSSFuzzObject (OSSFuzz.__init__ config))
  else
    logging.info "Using ClusterFuzzLite as ClusterFuzz deployment.";;;
    ret (LiteObject (ClusterFuzzLite.__init__ env config)).

(** ** Vocabulary of the properties *)

(** A collaborator that never removes a directory. *)
Definition keeps_dirs {R} (c : Effect R) : Prop := ∀ w, dirs w ⊆ snd (c w).

(** The collaborators a deployment's [download_latest_build] goes through
    never remove a directory: the filestore's build download for
    [ClusterFuzzLite]; the version-file fetch and the zip download for
    [OSSFuzz]. *)
Definition build_fetch_keeps_dirs (env : Env) (d : Deployment) : Prop :=
  match d with
  | LiteObject self =>
      ∀ name dst,
        keeps_dirs (Filestore.download_latest_build
                      (ClusterFuzzLite.filestore self) name dst)
  | OSSFuzzObject _ =>
      (∀ url, keeps_dirs (urlopen env url))
      ∧ (∀ url dst, keeps_dirs (download_and_unpack_zip env url dst))
  end.

(** The events that fetch a build: the filestore's build download and the
    zip download. *)
Definition is_build_fetch (ev : Event) : bool :=
  match ev with
  | EvFilestoreDownloadLatestBuild _ _ | EvDownloadAndUnpackZip _ _ => true
  | _ => false
  end.

Definition count_build_fetches (t : list Event) : nat :=
  length (List.filter is_build_fetch t).

(** The events that go to a remote store on behalf of a build download: the
    filestore's build download, the fetch of the version file and the zip
    download. *)
Definition is_remote_call (ev : Event) : bool :=
  match ev with
  | EvFilestoreDownloadLatestBuild _ _ | EvDownloadAndUnpackZip _ _
  | EvUrlopen _ => true
  | _ => false
  end.

(** The world [download_latest_build] is left in after [n] calls in a row. *)
Definition after_calls (env : Env) (d : Deployment) (parent_dir : string)
  (n : nat) (w : World) : World :=
  Nat.iter n (λ w', snd (download_latest_build env d parent_dir w')) w.

(** The events that fetch a corpus: the filestore's corpus download and the
    zip download. *)
Definition is_corpus_fetch (ev : Event) : bool :=
  match ev with
  | EvFilestoreDownloadCorpus _ _ | EvDownloadAndUnpackZip _ _ => true
  | _ => false
  end.

Definition count_corpus_fetches (t : list Event) : nat :=
  length (List.filter is_corpus_fetch t).

(** The collaborator a deployment's [download_corpus] goes through never
    removes a directory. *)
Definition corpus_fetch_keeps_dirs (env : Env) (d : Deployment) : Prop :=
  match d with
  | LiteObject self =>
      ∀ name dst,
        keeps_dirs (Filestore.download_corpus
                      (ClusterFuzzLite.filestore self) name dst)
  | OSSFuzzObject _ =>
      ∀ url dst, keeps_dirs (download_and_unpack_zip env url dst)
  end.

(** Whether the trace holds an upload of the build, or of the corpus, called
    [name]. *)
Definition uploaded_build (name : string) (t : list Event) : bool :=
  existsb (λ ev, match ev with
                 | EvFilestoreUploadLatestBuild n _ => String.eqb n name
                 | _ => false
                 end) t.

Definition uploaded_corpus (name : string) (t : list Event) : bool :=
  existsb (λ ev, match ev with
                 | EvFilestoreUploadCorpus n _ => String.eqb n name
                 | _ => false
                 end) t.

(** ** Test doubles *)

Module Stub.

(** A filestore whose build operations report [ok] and whose corpus
    operations raise [err], if any; it leaves the file system alone. *)
Definition filestore (ok : bool) (err : option exn) : Filestore.t :=
  let corpus_result := match err with Some e => Raise e | None => Ret tt end in
  {| Filestore.download_latest_build := λ _ _ w, (ok, dirs w);
     Filestore.upload_latest_build := λ _ _ w, (ok, dirs w);
     Filestore.download_corpus := λ _ _ w, (corpus_result, dirs w);
     Filestore.upload_corpus := λ _ _ w, (corpus_result, dirs w) |}.

(** An environment whose zip download reports [ok] and whose version-file
    fetch gives [response]. *)
Definition env (ok : bool) (err : option exn) (response : Outcome bytes) : Env :=
  {| get_filestore := λ _, filestore ok err;
     download_and_unpack_zip := λ _ _ w, (ok, dirs w);
     urlopen := λ _ w, (response, dirs w);
     decode := λ b, Ret (string_of_list_byte b);
     GCS_BASE_URL := "https://storage.googleapis.com/" |}.

Definition empty_world : World := {| dirs := ∅; trace := [] |}.

Definition lite_config : Config :=
  {| project_name := "curl"; sanitizer := "address";
     platform := OTHER_PLATFORM "EXTERNAL_GITHUB" |}.

Definition oss_fuzz_config : Config :=
  {| project_name := "curl"; sanitizer := "address";
     platform := INTERNAL_GITHUB |}.

Definition version_body : bytes :=
  list_byte_of_string "curl-address-20230101.zip".

Definition http_404 : exn := mk_exn HTTPError "HTTP Error 404: Not Found".

Definition filestore_error : exn :=
  mk_exn (OtherError "FilestoreError") "artifact not found".

Definition url_error : exn :=
  mk_exn (OtherError "URLError") "<urlopen error timed out>".

(** A filestore that accepts every upload and serves exactly the names that
    were uploaded: a build download reports whether the name was uploaded, a
    corpus download raises when it was not. *)
Definition recording_filestore : Filestore.t :=
  {| Filestore.download_latest_build :=
       λ name _ w, (uploaded_build name (trace w), dirs w);
     Filestore.upload_latest_build := λ _ _ w, (true, dirs w);
     Filestore.download_corpus :=
       λ name _ w, (if uploaded_corpus name (trace w) then Ret tt
                    else Raise filestore_error, dirs w);
     Filestore.upload_corpus := λ _ _ w, (Ret tt, dirs w) |}.

End Stub.

(** ** Strings and paths *)

Lemma startswith_app (p s : string) : os.path.startswith (p ++ s) p = true.
Proof.
  induction p as [|c p IH]; [by destruct s|].
  change (String c p ++ s) with (String c (p ++ s)).
  cbn [os.path.startswith]. by rewrite Ascii.eqb_refl.
Qed.

Lemma append_assoc (a b c : string) : (a ++ b) ++ c = a ++ (b ++ c).
Proof.
  induction a as [|x a IH]; [done|].
  change (String x ((a ++ b) ++ c) = String x (a ++ (b ++ c))).
  by rewrite IH.
Qed.

Lemma append_nonempty (a b : string) : b ≠ "" → String.eqb (a ++ b) "" = false.
Proof. intros Hb. destruct a; [by destruct b|done]. Qed.

Lemma endswith_sep_app (a b : string) :
  b ≠ "" → os.path.endswith_sep (a ++ b) = os.path.endswith_sep b.
Proof.
  intros Hb. induction a as [|x a IH]; [done|].
  change (String x a ++ b) with (String x (a ++ b)).
  destruct (a ++ b) as [|y r] eqn:E.
  - destruct a; [change (b = "") in E; congruence | discriminate].
  - rewrite <- IH. reflexivity.
Qed.

Lemma startswith_sep_app (b c : string) :
  b ≠ "" → os.path.startswith (b ++ c) "/" = os.path.startswith b "/".
Proof.
  intros Hb. destruct b as [|x b]; [done|].
  change (String x b ++ c) with (String x (b ++ c)).
  cbn [os.path.startswith]. by destruct (b ++ c), b.
Qed.

(** Joining two parts one after the other is joining their concatenation
    with a slash in between, when the first is not empty and does not end
    with a slash and the second does not start with one. *)
Lemma join_step_segments (a b c : string) :
  b ≠ "" →
  os.path.endswith_sep b = false →
  os.path.startswith c "/" = false →
  os.path.join_step (os.path.join_step a b) c
  = os.path.join_step a (b ++ "/" ++ c).
Proof.
  intros Hb Hend Hc. unfold os.path.join_step at 1 3. unfold os.path.sep.
  rewrite Hc, (startswith_sep_app b ("/" ++ c) Hb).
  unfold os.path.join_step, os.path.sep.
  destruct (os.path.startswith b "/").
  - destruct b as [|x b]; [done|].
    change (String.eqb (String x b) "") with false.
    rewrite Hend. reflexivity.
  - destruct (String.eqb a "" || os.path.endswith_sep a).
    + rewrite (append_nonempty a b Hb), (endswith_sep_app a b Hb), Hend.
      simpl orb. cbv iota. by rewrite append_assoc.
    + rewrite (append_nonempty a ("/" ++ b)) by done.
      rewrite (endswith_sep_app a ("/" ++ b)) by done.
      change ("/" ++ b) with (String "/" b).
      assert (os.path.endswith_sep (String "/" b) = false) as ->.
      { destruct b; [done|]. exact Hend. }
      simpl orb. cbv iota. by rewrite !append_assoc.
Qed.

(** ** The factory *)

(** C1: the factory returns an [OSSFuzz] deployment when the platform is
    [INTERNAL_GENERIC_CI] or [INTERNAL_GITHUB], and a [ClusterFuzzLite]
    deployment (with the filestore the configuration selects) for every
    other platform value. *)
Theorem get_clusterfuzz_deployment_by_platform
  (env : Env) (config : Config) (w : World) :
  fst (get_clusterfuzz_deployment env config w)
  = Ret match platform config with
        | INTERNAL_GENERIC_CI | INTERNAL_GITHUB =>
            OSSFuzzObject (OSSFuzz.__init__ config)
        | OTHER_PLATFORM _ =>
            LiteObject (ClusterFuzzLite.__init__ env config)
        end.
Proof.
  unfold get_clusterfuzz_deployment.
  destruct (platform config); reflexivity.
Qed.

(** ** Qualified target names *)

(** C7: the project-qualified name of a target is the target name itself
    when it starts with the project name and an underscore, and the target
    name with that prefix otherwise; qualifying twice is qualifying once. *)
Theorem project_qualified_fuzz_target_name_idempotent
  (self : OSSFuzz.t) (target_name : string) :
  let p := project_name (OSSFuzz.config self) in
  let q := OSSFuzz.project_qualified_fuzz_target_name self in
  q target_name
  = (if os.path.startswith target_name (p ++ "_") then target_name
     else p ++ "_" ++ target_name)
  ∧ q (q target_name) = q target_name.
Proof.
  intros p q. subst q. unfold OSSFuzz.project_qualified_fuzz_target_name.
  fold p. destruct (os.path.startswith target_name (p ++ "_")) eqn:E; simpl.
  - split; [done|]. by rewrite E.
  - split; [by rewrite append_assoc|].
    by rewrite startswith_app.
Qed.

(** ** Uploading a build to OSS-Fuzz *)

(** C3: [upload_latest_build] on an [OSSFuzz] deployment raises for every
    build directory and in every world, before any effect takes place. *)
Theorem OSSFuzz_upload_latest_build_raises
  (self : OSSFuzz.t) (build_dir : string) (w : World) :
  upload_latest_build (OSSFuzzObject self) build_dir w
  = (Raise (mk_exn Exception
              "upload_latest_build not should not be called for OSSFuzz."),
     w).
Proof. reflexivity. Qed.

(** ** Corpora *)

(** C4: [OSSFuzz.download_corpus] returns the corpus directory whatever the
    zip download reports: it creates the directory, calls the download once
    and drops the boolean, which appears nowhere in the result. *)
Theorem OSSFuzz_download_corpus_ignores_fetch_result
  (env : Env) (self : OSSFuzz.t) (target_name parent_dir : string) (w : World) :
  let corpus_dir :=
    BaseClusterFuzzDeployment.get_corpus_dir target_name parent_dir in
  let url := OSSFuzz.corpus_url env self target_name in
  let fetch :=
    download_and_unpack_zip env url corpus_dir (snd (os.makedirs corpus_dir w)) in
  download_corpus env (OSSFuzzObject self) target_name parent_dir w
  = (Ret corpus_dir,
     {| dirs := snd fetch;
        trace := (trace w ++ [EvMakedirs corpus_dir;
                              EvDownloadAndUnpackZip url corpus_dir])%list |}).
Proof.
  intros corpus_dir url fetch. subst fetch.
  unfold download_corpus, OSSFuzz.download_corpus, bind, call, ret.
  fold corpus_dir. fold url. unfold os.makedirs. cbn [snd trace dirs].
  destruct (download_and_unpack_zip env url corpus_dir _) as [ok d].
  cbn [snd]. by rewrite <- app_assoc.
Qed.

(** The world in which [ClusterFuzzLite.download_corpus] calls the
    filestore. *)
Lemma Lite_download_corpus_unfold
  (self : ClusterFuzzLite.t) (target_name parent_dir : string) (w : World) :
  let corpus_dir :=
    BaseClusterFuzzDeployment.get_corpus_dir target_name parent_dir in
  let name := ClusterFuzzLite._get_corpus_name target_name in
  let w1 :=
    snd ((logging.debug ("ClusterFuzzLite: downloading corpus for "
                         ++ target_name ++ " to " ++ parent_dir ++ ".");;;
          os.makedirs corpus_dir) w) in
  let w2 := record (EvFilestoreDownloadCorpus name corpus_dir) w1 in
  let fetch :=
    Filestore.download_corpus (ClusterFuzzLite.filestore self) name corpus_dir w1 in
  ClusterFuzzLite.download_corpus self target_name parent_dir w
  = match fst fetch with
    | Ret _ => (Ret corpus_dir, {| dirs := snd fetch; trace := trace w2 |})
    | Raise err =>
        (Raise err,
         record (EvLog ERROR ("Failed to download corpus for target: "
                              ++ target_name ++ ". Error: " ++ exn_str err
                              ++ "."))
           {| dirs := snd fetch; trace := trace w2 |})
    end.
Proof.
  intros corpus_dir name w1 w2 fetch. subst w2 fetch w1.
  unfold ClusterFuzzLite.download_corpus, bind, try_except, call_raising, ret,
    raise, logging.debug, logging.error, os.makedirs, record.
  fold corpus_dir. fold name. cbn [snd fst trace dirs].
  destruct (Filestore.download_corpus _ name corpus_dir _) as [[u|err] d];
    reflexivity.
Qed.

(** C5: when the filestore's [download_corpus] raises [err],
    [ClusterFuzzLite.download_corpus] raises the same [err], and the last
    thing it did before was to log the failure; when the filestore call
    returns, it returns the corpus directory. *)
Theorem Lite_download_corpus_reraises
  (env : Env) (self : ClusterFuzzLite.t) (target_name parent_dir : string)
  (w : World) :
  let corpus_dir :=
    BaseClusterFuzzDeployment.get_corpus_dir target_name parent_dir in
  let name := ClusterFuzzLite._get_corpus_name target_name in
  let w1 :=
    snd ((logging.debug ("ClusterFuzzLite: downloading corpus for "
                         ++ target_name ++ " to " ++ parent_dir ++ ".");;;
          os.makedirs corpus_dir) w) in
  let result :=
    download_corpus env (LiteObject self) target_name parent_dir w in
  match fst (Filestore.download_corpus (ClusterFuzzLite.filestore self)
               name corpus_dir w1) with
  | Raise err =>
      fst result = Raise err
      ∧ last (trace (snd result))
        = Some (EvLog ERROR ("Failed to download corpus for target: "
                             ++ target_name ++ ". Error: " ++ exn_str err
                             ++ "."))
  | Ret _ => fst result = Ret corpus_dir
  end.
Proof.
  intros corpus_dir name w1 result. subst result.
  unfold download_corpus.
  rewrite Lite_download_corpus_unfold.
  fold corpus_dir. fold name. fold w1.
  destruct (fst (Filestore.download_corpus _ name corpus_dir w1)) as [u|err];
    [reflexivity|].
  split; [reflexivity|].
  unfold record. cbn [snd trace]. apply last_snoc.
Qed.

(** C6, as stated for both backends, fails on [OSSFuzz]: the class has no
    [upload_corpus], so the call raises [AttributeError]. *)
Lemma OSSFuzz_upload_corpus_raises :
  upload_corpus (OSSFuzzObject (OSSFuzz.__init__ Stub.oss_fuzz_config))
    "fuzz_target" "/tmp/run1/cifuzz-corpus/fuzz_target" Stub.empty_world
  = (Raise (mk_exn AttributeError
              "'OSSFuzz' object has no attribute 'upload_corpus'"),
     Stub.empty_world).
Proof. reflexivity. Qed.

(** C6, amended to the class that defines [upload_corpus]:
    [ClusterFuzzLite.upload_corpus] completes normally for every target
    name, corpus directory and behaviour of the filestore; it calls the
    filestore once, for the corpus name of the target, and when that call
    raises, the error is logged and goes no further. *)
Theorem Lite_upload_corpus_never_raises
  (self : ClusterFuzzLite.t) (target_name corpus_dir : string) (w : World) :
  let name := ClusterFuzzLite._get_corpus_name target_name in
  let w1 := snd (logging.info ("Uploading corpus for " ++ target_name) w) in
  let upload :=
    Filestore.upload_corpus (ClusterFuzzLite.filestore self) name corpus_dir w1 in
  let result := upload_corpus (LiteObject self) target_name corpus_dir w in
  fst result = Ret tt
  ∧ dirs (snd result) = snd upload
  ∧ trace (snd result)
    = (trace w1 ++ EvFilestoreUploadCorpus name corpus_dir
         :: match fst upload with
            | Ret _ => []
            | Raise error =>
                [EvLog ERROR ("Failed to upload corpus for target: "
                              ++ target_name ++ ". Error: " ++ exn_str error
                              ++ ".")]
            end)%list.
Proof.
  intros name w1 upload result. subst result upload w1.
  unfold upload_corpus, ClusterFuzzLite.upload_corpus, bind, try_except,
    call_raising, logging.info, logging.error, record.
  fold name. cbn [snd fst trace dirs].
  destruct (Filestore.upload_corpus _ name corpus_dir _) as [[[]|error] d];
    cbn [snd fst trace dirs]; repeat split; by rewrite <- ?app_assoc.
Qed.

(** ** Builds *)

(** [ClusterFuzzLite.download_latest_build], step by step. *)
Lemma Lite_download_latest_build_unfold
  (self : ClusterFuzzLite.t) (parent_dir : string) (w : World) :
  let build_dir := BaseClusterFuzzDeployment.get_build_dir parent_dir in
  let name := ClusterFuzzLite._get_build_name self in
  let fetch :=
    Filestore.download_latest_build (ClusterFuzzLite.filestore self) name
      build_dir (snd (os.makedirs build_dir w)) in
  ClusterFuzzLite.download_latest_build self parent_dir w
  = if bool_decide (build_dir ∈ dirs w) then (Ret (Some build_dir), w)
    else (Ret (if fst fetch then Some build_dir else None),
          {| dirs := snd fetch;
             trace := (trace w ++ [EvMakedirs build_dir;
                                   EvFilestoreDownloadLatestBuild name
                                     build_dir])%list |}).
Proof.
  intros build_dir name fetch. subst fetch.
  unfold ClusterFuzzLite.download_latest_build, bind, call, ret,
    os.path.exists_, os.makedirs.
  fold build_dir. fold name. cbn [snd fst trace dirs].
  destruct (bool_decide (build_dir ∈ dirs w)); [reflexivity|].
  destruct (Filestore.download_latest_build _ name build_dir _) as [[] d];
    cbn [snd fst]; by rewrite <- app_assoc.
Qed.

(** [OSSFuzz.get_latest_build_name], step by step. *)
Lemma get_latest_build_name_unfold (env : Env) (self : OSSFuzz.t) (w : World) :
  let url := OSSFuzz.version_url env self in
  let fetch := urlopen env url w in
  let w1 := {| dirs := snd fetch; trace := (trace w ++ [EvUrlopen url])%list |} in
  OSSFuzz.get_latest_build_name env self w
  = match fst fetch with
    | Ret body =>
        (match decode env body with
         | Ret text => Ret (Some text)
         | Raise e => Raise e
         end, w1)
    | Raise e =>
        if is_HTTPError e
        then (Ret None,
              record (EvLog ERROR ("Error getting latest build version for "
                                   ++ project_name (OSSFuzz.config self)
                                   ++ " from: " ++ url ++ ".")) w1)
        else (Raise e, w1)
    end.
Proof.
  intros url fetch w1. subst w1 fetch.
  unfold OSSFuzz.get_latest_build_name, bind, try_except, call_raising, ret,
    raise, logging.error.
  fold url.
  destruct (urlopen env url w) as [[body|e] d]; cbn [fst snd].
  - by destruct (decode env body).
  - by destruct (is_HTTPError e).
Qed.

(** [OSSFuzz.download_latest_build], step by step. *)
Lemma OSSFuzz_download_latest_build_unfold
  (env : Env) (self : OSSFuzz.t) (parent_dir : string) (w : World) :
  let build_dir := BaseClusterFuzzDeployment.get_build_dir parent_dir in
  let resolved :=
    OSSFuzz.get_latest_build_name env self (snd (os.makedirs build_dir w)) in
  OSSFuzz.download_latest_build env self parent_dir w
  = if bool_decide (build_dir ∈ dirs w) then (Ret (Some build_dir), w)
    else match fst resolved with
         | Raise e => (Raise e, snd resolved)
         | Ret None => (Ret None, snd resolved)
         | Ret (Some name) =>
             if String.eqb name "" then (Ret None, snd resolved)
             else
               let url := OSSFuzz.build_url env self name in
               let fetch :=
                 download_and_unpack_zip env url build_dir (snd resolved) in
               (Ret (if fst fetch then Some build_dir else None),
                {| dirs := snd fetch;
                   trace := (trace (snd resolved)
                             ++ [EvDownloadAndUnpackZip url build_dir])%list |})
         end.
Proof.
  intros build_dir resolved. subst resolved.
  unfold OSSFuzz.download_latest_build, bind at 1 2 3, ret, os.path.exists_.
  fold build_dir. cbn [snd fst].
  destruct (bool_decide (build_dir ∈ dirs w)); [reflexivity|].
  unfold os.makedirs at 1. cbn [snd].
  destruct (OSSFuzz.get_latest_build_name env self _) as [[[name|]|e] w2];
    cbn [fst snd]; try reflexivity.
  destruct (String.eqb name ""); [reflexivity|].
  unfold bind, call.
  destruct (download_and_unpack_zip env _ build_dir w2) as [[] d]; reflexivity.
Qed.

Lemma get_latest_build_name_dirs (env : Env) (self : OSSFuzz.t) (w : World) :
  (∀ url, keeps_dirs (urlopen env url)) →
  dirs w ⊆ dirs (snd (OSSFuzz.get_latest_build_name env self w)).
Proof.
  intros Hkeep. rewrite get_latest_build_name_unfold.
  pose proof (Hkeep (OSSFuzz.version_url env self) w) as Hsub.
  destruct (fst (urlopen env _ w)) as [body|e]; [exact Hsub|].
  destruct (is_HTTPError e); exact Hsub.
Qed.

Lemma get_latest_build_name_trace (env : Env) (self : OSSFuzz.t) (w : World) :
  ∃ logs,
    trace (snd (OSSFuzz.get_latest_build_name env self w))
    = (trace w ++ EvUrlopen (OSSFuzz.version_url env self) :: logs)%list
    ∧ List.filter is_build_fetch logs = [].
Proof.
  rewrite get_latest_build_name_unfold.
  destruct (fst (urlopen env _ w)) as [body|e]; [by exists []|].
  destruct (is_HTTPError e); [|by exists []].
  eexists [_]. unfold record. cbn [snd trace].
  split; [by rewrite <- app_assoc|reflexivity].
Qed.

(** The cache hit: when the build directory exists, [download_latest_build]
    returns it and does nothing else. *)
Lemma download_latest_build_cache_hit
  (env : Env) (d : Deployment) (parent_dir : string) (w : World) :
  BaseClusterFuzzDeployment.get_build_dir parent_dir ∈ dirs w →
  download_latest_build env d parent_dir w
  = (Ret (Some (BaseClusterFuzzDeployment.get_build_dir parent_dir)), w).
Proof.
  intros Hin. destruct d as [self|self]; unfold download_latest_build.
  - rewrite Lite_download_latest_build_unfold. by rewrite bool_decide_true.
  - rewrite OSSFuzz_download_latest_build_unfold. by rewrite bool_decide_true.
Qed.

(** After any call the build directory exists, whatever the call returned. *)
Lemma download_latest_build_creates_dir
  (env : Env) (d : Deployment) (parent_dir : string) (w : World) :
  build_fetch_keeps_dirs env d →
  BaseClusterFuzzDeployment.get_build_dir parent_dir
  ∈ dirs (snd (download_latest_build env d parent_dir w)).
Proof.
  intros Hkeep. set (build_dir := BaseClusterFuzzDeployment.get_build_dir _).
  destruct d as [self|self]; unfold download_latest_build;
    cbn [build_fetch_keeps_dirs] in Hkeep.
  - rewrite Lite_download_latest_build_unfold. fold build_dir.
    destruct (bool_decide_reflect (build_dir ∈ dirs w)) as [Hin|Hout];
      [exact Hin|].
    cbn [snd dirs]. apply Hkeep. unfold os.makedirs. cbn [snd dirs].
    set_solver.
  - destruct Hkeep as [Hurl Hzip].
    rewrite OSSFuzz_download_latest_build_unfold. fold build_dir.
    destruct (bool_decide_reflect (build_dir ∈ dirs w)) as [Hin|Hout];
      [exact Hin|].
    pose proof (get_latest_build_name_dirs env self
                  (snd (os.makedirs build_dir w)) Hurl) as Hsub.
    assert (build_dir ∈ dirs (snd (OSSFuzz.get_latest_build_name env self
                                     (snd (os.makedirs build_dir w)))))
      as Hin.
    { apply Hsub. unfold os.makedirs. cbn [snd dirs]. set_solver. }
    destruct (fst (OSSFuzz.get_latest_build_name env self _)) as [[name|]|e];
      try exact Hin.
    destruct (String.eqb name ""); [exact Hin|].
    cbn [snd dirs]. by apply Hzip.
Qed.

(** What a call adds to the trace: nothing, or the creation of the build
    directory first and at most one build fetch after it. *)
Lemma download_latest_build_trace
  (env : Env) (d : Deployment) (parent_dir : string) (w : World) :
  ∃ added,
    trace (snd (download_latest_build env d parent_dir w))
    = (trace w ++ added)%list
    ∧ (added = []
       ∨ ∃ rest,
           added
           = EvMakedirs (BaseClusterFuzzDeployment.get_build_dir parent_dir)
               :: rest)
    ∧ (count_build_fetches added ≤ 1)%nat.
Proof.
  set (build_dir := BaseClusterFuzzDeployment.get_build_dir _).
  destruct d as [self|self]; unfold download_latest_build.
  - rewrite Lite_download_latest_build_unfold. fold build_dir.
    destruct (bool_decide (build_dir ∈ dirs w)).
    + exists []. cbn [snd]. rewrite app_nil_r. repeat split; [by left|].
      cbn. lia.
    + eexists [_; _]. cbn [snd trace]. repeat split; [by right; eexists|].
      cbn. lia.
  - rewrite OSSFuzz_download_latest_build_unfold. fold build_dir.
    destruct (bool_decide (build_dir ∈ dirs w)).
    { exists []. cbn [snd]. rewrite app_nil_r. repeat split; [by left|].
      cbn. lia. }
    destruct (get_latest_build_name_trace env self
                (snd (os.makedirs build_dir w))) as (logs & Htrace & Hlogs).
    unfold os.makedirs in Htrace at 2. cbn [snd trace] in Htrace.
    rewrite <- app_assoc in Htrace. cbn [app] in Htrace.
    assert (count_build_fetches
              (EvMakedirs build_dir
                 :: EvUrlopen (OSSFuzz.version_url env self) :: logs) = 0)
      as Hcount.
    { unfold count_build_fetches. cbn [List.filter is_build_fetch].
      by rewrite Hlogs. }
    destruct (fst (OSSFuzz.get_latest_build_name env self _)) as [[name|]|e].
    2,3: eexists; split; [exact Htrace|]; split; [by right; eexists|];
         rewrite Hcount; lia.
    destruct (String.eqb name "").
    { eexists; split; [exact Htrace|]; split; [by right; eexists|].
      rewrite Hcount; lia. }
    cbn [snd trace]. rewrite Htrace.
    eexists (_ :: _ :: logs ++ [_])%list. split.
    { rewrite <- app_assoc. reflexivity. }
    split; [by right; eexists|].
    unfold count_build_fetches in *.
    cbn [List.filter is_build_fetch] in *.
    rewrite List.filter_app, Hlogs. cbn. lia.
Qed.

(** The only path [download_latest_build] ever returns is the build
    directory. *)
Lemma download_latest_build_returns_build_dir
  (env : Env) (d : Deployment) (parent_dir : string) (w : World) (p : string) :
  fst (download_latest_build env d parent_dir w) = Ret (Some p) →
  p = BaseClusterFuzzDeployment.get_build_dir parent_dir.
Proof.
  set (build_dir := BaseClusterFuzzDeployment.get_build_dir _).
  destruct d as [self|self]; unfold download_latest_build.
  - rewrite Lite_download_latest_build_unfold. fold build_dir.
    destruct (bool_decide (build_dir ∈ dirs w)); cbn [fst]; [congruence|].
    destruct (fst (Filestore.download_latest_build _ _ _ _)); congruence.
  - rewrite OSSFuzz_download_latest_build_unfold. fold build_dir.
    destruct (bool_decide (build_dir ∈ dirs w)); cbn [fst]; [congruence|].
    destruct (fst (OSSFuzz.get_latest_build_name env self _)) as [[name|]|e];
      cbn [fst]; try congruence.
    destruct (String.eqb name ""); cbn [fst]; [congruence|].
    destruct (fst (download_and_unpack_zip env _ _ _)); congruence.
Qed.

(** C2: on both backends, of two calls in a row with the same parent
    directory the second returns the build directory and leaves the world as
    the first left it (no event, so no call to the filestore or to the zip
    download); it returns what the first returned when that was a path; and
    the two calls together fetch a build at most once. *)
Theorem download_latest_build_twice_fetches_once
  (env : Env) (d : Deployment) (parent_dir : string) (w : World) :
  build_fetch_keeps_dirs env d →
  let first := download_latest_build env d parent_dir w in
  let second := download_latest_build env d parent_dir (snd first) in
  fst second = Ret (Some (BaseClusterFuzzDeployment.get_build_dir parent_dir))
  ∧ snd second = snd first
  ∧ (∀ p, fst first = Ret (Some p) → fst second = fst first)
  ∧ ∃ added,
      trace (snd second) = (trace w ++ added)%list
      ∧ (count_build_fetches added ≤ 1)%nat.
Proof.
  intros Hkeep first second.
  assert (second
          = (Ret (Some (BaseClusterFuzzDeployment.get_build_dir parent_dir)),
             snd first)) as Hsecond.
  { apply download_latest_build_cache_hit.
    by apply download_latest_build_creates_dir. }
  rewrite Hsecond. cbn [fst snd]. repeat split.
  - intros p Hp. rewrite Hp. do 2 f_equal. symmetry.
    exact (download_latest_build_returns_build_dir _ _ _ _ _ Hp).
  - destruct (download_latest_build_trace env d parent_dir w)
      as (added & Htrace & _ & Hcount).
    by exists added.
Qed.

(** A run of C2 against a lite deployment whose filestore succeeds: the
    trace counts the calls. *)
Lemma download_latest_build_twice_fetches_once_witness :
  let env := Stub.env true None (Ret Stub.version_body) in
  let d := LiteObject (ClusterFuzzLite.__init__ env Stub.lite_config) in
  build_fetch_keeps_dirs env d
  ∧ let first := download_latest_build env d "/tmp/run1" Stub.empty_world in
    let second := download_latest_build env d "/tmp/run1" (snd first) in
    fst second = Ret (Some "/tmp/run1/cifuzz-latest-build")
    ∧ snd second = snd first
    ∧ (∀ p, fst first = Ret (Some p) → fst second = fst first)
    ∧ ∃ added,
        trace (snd second) = (trace Stub.empty_world ++ added)%list
        ∧ (count_build_fetches added ≤ 1)%nat.
Proof.
  intros env d.
  assert (build_fetch_keeps_dirs env d) as Hkeep.
  { intros name dst w. cbn. reflexivity. }
  split; [exact Hkeep|].
  exact (download_latest_build_twice_fetches_once env d "/tmp/run1"
           Stub.empty_world Hkeep).
Defined.

(** A call that does not find the build directory starts by creating it,
    and only then goes to the remote store. *)
Lemma download_latest_build_creates_first
  (env : Env) (d : Deployment) (parent_dir : string) (w : World) :
  let build_dir := BaseClusterFuzzDeployment.get_build_dir parent_dir in
  build_dir ∉ dirs w →
  ∃ ev rest,
    trace (snd (download_latest_build env d parent_dir w))
    = (trace w ++ EvMakedirs build_dir :: ev :: rest)%list
    ∧ is_remote_call ev = true.
Proof.
  intros build_dir Hout.
  destruct d as [self|self]; unfold download_latest_build.
  - rewrite Lite_download_latest_build_unfold. fold build_dir.
    rewrite (bool_decide_false _ Hout). cbn [snd trace].
    eexists (EvFilestoreDownloadLatestBuild _ _), []. by split.
  - rewrite OSSFuzz_download_latest_build_unfold. fold build_dir.
    rewrite (bool_decide_false _ Hout).
    destruct (get_latest_build_name_trace env self
                (snd (os.makedirs build_dir w))) as (logs & Htrace & _).
    unfold os.makedirs in Htrace at 2. cbn [snd trace] in Htrace.
    rewrite <- app_assoc in Htrace. cbn [app] in Htrace.
    destruct (fst (OSSFuzz.get_latest_build_name env self _)) as [[name|]|e].
    2,3: by exists (EvUrlopen (OSSFuzz.version_url env self)), logs.
    destruct (String.eqb name "").
    { by exists (EvUrlopen (OSSFuzz.version_url env self)), logs. }
    cbn [snd trace]. rewrite Htrace.
    eexists (EvUrlopen _), (logs ++ [_])%list. split; [|reflexivity].
    rewrite <- app_assoc. reflexivity.
Qed.

(** C10: on both backends a call that does not find the build directory
    creates it first and only then goes to the remote store; a call returns
    [None] only in that case.  So the build directory exists after every
    call, also after one that returned [None], and every later call with the
    same parent directory returns the build directory and changes nothing:
    the failed fetch is never retried. *)
Theorem download_latest_build_failure_is_cached
  (env : Env) (d : Deployment) (parent_dir : string) (w : World) :
  build_fetch_keeps_dirs env d →
  let build_dir := BaseClusterFuzzDeployment.get_build_dir parent_dir in
  let first := download_latest_build env d parent_dir w in
  (build_dir ∉ dirs w →
   ∃ ev rest,
     trace (snd first) = (trace w ++ EvMakedirs build_dir :: ev :: rest)%list
     ∧ is_remote_call ev = true)
  ∧ (fst first = Ret None → build_dir ∉ dirs w)
  ∧ build_dir ∈ dirs (snd first)
  ∧ ∀ n,
      let w' := after_calls env d parent_dir n (snd first) in
      w' = snd first
      ∧ download_latest_build env d parent_dir w' = (Ret (Some build_dir), w').
Proof.
  intros Hkeep build_dir first.
  pose proof (download_latest_build_creates_dir env d parent_dir w Hkeep)
    as Hdir.
  fold build_dir in Hdir. fold first in Hdir.
  split; [|split; [|split; [exact Hdir|]]].
  - apply download_latest_build_creates_first.
  - intros Hnone Hin.
    pose proof (download_latest_build_cache_hit env d parent_dir w Hin) as Hhit.
    fold first in Hhit. rewrite Hhit in Hnone. discriminate.
  - assert (∀ n, after_calls env d parent_dir n (snd first) = snd first)
      as Hfix.
    { induction n as [|n IH]; [reflexivity|].
      change (after_calls env d parent_dir (S n) (snd first))
        with (snd (download_latest_build env d parent_dir
                     (after_calls env d parent_dir n (snd first)))).
      rewrite IH.
      by rewrite (download_latest_build_cache_hit env d parent_dir _ Hdir). }
    intros n w'. subst w'. rewrite Hfix. split; [reflexivity|].
    by apply download_latest_build_cache_hit.
Qed.

(** Runs of C10 on both backends, against a filestore that has no build and
    a version file that is missing: the first call creates the directory,
    goes to the remote store and returns [None]; the later ones return the
    directory. *)
Lemma download_latest_build_failure_is_cached_witness :
  let env := Stub.env false None (Raise Stub.http_404) in
  let build_dir := "/tmp/run1/cifuzz-latest-build" in
  let run d :=
    (let first := download_latest_build env d "/tmp/run1" Stub.empty_world in
     build_fetch_keeps_dirs env d
    ∧ (build_dir ∉ dirs Stub.empty_world)
    ∧ fst first = Ret None
    ∧ (∃ ev rest,
         trace (snd first)
         = (trace Stub.empty_world ++ EvMakedirs build_dir :: ev :: rest)%list
         ∧ is_remote_call ev = true)
    ∧ build_dir ∈ dirs (snd first)
    ∧ ∀ n,
        let w' := after_calls env d "/tmp/run1" n (snd first) in
        w' = snd first
        ∧ download_latest_build env d "/tmp/run1" w'
          = (Ret (Some build_dir), w')) in
  run (LiteObject (ClusterFuzzLite.__init__ env Stub.lite_config))
  ∧ run (OSSFuzzObject (OSSFuzz.__init__ Stub.oss_fuzz_config)).
Proof.
  intros env build_dir run.
  assert (build_dir ∉ dirs Stub.empty_world) as Hout
    by apply not_elem_of_empty.
  split.
  - set (d := LiteObject (ClusterFuzzLite.__init__ env Stub.lite_config)).
    assert (build_fetch_keeps_dirs env d) as Hkeep.
    { intros name dst w. cbn. reflexivity. }
    destruct (download_latest_build_failure_is_cached env d "/tmp/run1"
                Stub.empty_world Hkeep) as (Hfirst & _ & Hdir & Hlater).
    split; [exact Hkeep|]. split; [exact Hout|].
    split; [vm_compute; reflexivity|].
    split; [exact (Hfirst Hout)|]. split; [exact Hdir|exact Hlater].
  - set (d := OSSFuzzObject (OSSFuzz.__init__ Stub.oss_fuzz_config)).
    assert (build_fetch_keeps_dirs env d) as Hkeep.
    { split; intros; intros w; cbn; reflexivity. }
    destruct (download_latest_build_failure_is_cached env d "/tmp/run1"
                Stub.empty_world Hkeep) as (Hfirst & _ & Hdir & Hlater).
    split; [exact Hkeep|]. split; [exact Hout|].
    split; [vm_compute; reflexivity|].
    split; [exact (Hfirst Hout)|]. split; [exact Hdir|exact Hlater].
Defined.

(** C8: when the version file resolves to the build name [b], every zip
    download [OSSFuzz.download_latest_build] makes is for the join of the
    base URL, [clusterfuzz-builds], the project name and [b], into the build
    directory; that download is made when the build directory is absent and
    [b] is not empty; and for project [curl] and build
    [curl-address-20230101.zip] the URL is the base URL joined with
    [clusterfuzz-builds/curl/curl-address-20230101.zip]. *)
Theorem OSSFuzz_download_latest_build_url
  (env : Env) (self : OSSFuzz.t) (parent_dir : string) (w : World)
  (b : string) :
  let build_dir := BaseClusterFuzzDeployment.get_build_dir parent_dir in
  let url :=
    utils.url_join [GCS_BASE_URL env; "clusterfuzz-builds";
                    project_name (OSSFuzz.config self); b] in
  let result := download_latest_build env (OSSFuzzObject self) parent_dir w in
  fst (OSSFuzz.get_latest_build_name env self (snd (os.makedirs build_dir w)))
  = Ret (Some b) →
  (∃ added,
     trace (snd result) = (trace w ++ added)%list
     ∧ ∀ u dst, In (EvDownloadAndUnpackZip u dst) added →
                u = url ∧ dst = build_dir)
  ∧ (build_dir ∉ dirs w → b ≠ "" →
     last (trace (snd result)) = Some (EvDownloadAndUnpackZip url build_dir))
  ∧ (project_name (OSSFuzz.config self) = "curl" →
     b = "curl-address-20230101.zip" →
     url = utils.url_join [GCS_BASE_URL env;
                           "clusterfuzz-builds/curl/curl-address-20230101.zip"]).
Proof.
  intros build_dir url result Hresolved. subst result.
  unfold download_latest_build.
  rewrite OSSFuzz_download_latest_build_unfold. fold build_dir.
  rewrite Hresolved.
  change (OSSFuzz.build_url env self b) with url.
  destruct (get_latest_build_name_trace env self
              (snd (os.makedirs build_dir w))) as (logs & Htrace & Hlogs).
  unfold os.makedirs in Htrace at 2. cbn [snd trace] in Htrace.
  rewrite <- app_assoc in Htrace. cbn [app] in Htrace.
  assert (∀ u dst, ¬ In (EvDownloadAndUnpackZip u dst) logs) as Hnone.
  { intros u dst Hin.
    assert (In (EvDownloadAndUnpackZip u dst) (List.filter is_build_fetch logs))
      as Hf by (apply List.filter_In; by split).
    rewrite Hlogs in Hf. destruct Hf. }
  split; [|split].
  - destruct (bool_decide (build_dir ∈ dirs w)).
    { exists []. cbn [snd]. rewrite app_nil_r. split; [done|]. by intros. }
    destruct (String.eqb b "").
    { eexists. split; [exact Htrace|].
      intros u dst [Hin|[Hin|Hin]]; [discriminate..|].
      by destruct (Hnone u dst). }
    cbn [snd trace]. rewrite Htrace.
    eexists (_ :: _ :: logs ++ [_])%list. split.
    { rewrite <- app_assoc. reflexivity. }
    intros u dst [Hin|[Hin|Hin]]; [discriminate..|].
    apply List.in_app_or in Hin as [Hin|[Hin|[]]].
    + by destruct (Hnone u dst).
    + by injection Hin as <- <-.
  - intros Hout Hb. rewrite (bool_decide_false _ Hout).
    apply String.eqb_neq in Hb. rewrite Hb.
    cbn [snd trace]. apply last_snoc.
  - intros Hp Hbuild. subst url. rewrite Hp, Hbuild.
    unfold utils.url_join, os.path.join. cbn [fold_left].
    rewrite (join_step_segments (GCS_BASE_URL env) "clusterfuzz-builds" "curl")
      by done.
    change ("clusterfuzz-builds" ++ "/" ++ "curl") with "clusterfuzz-builds/curl".
    by rewrite (join_step_segments (GCS_BASE_URL env)
                  "clusterfuzz-builds/curl" "curl-address-20230101.zip").
Qed.

(** The end-to-end scenario of C8: project [curl], a version file that
    contains [curl-address-20230101.zip]. *)
Lemma OSSFuzz_download_latest_build_url_witness :
  let env := Stub.env true None (Ret Stub.version_body) in
  let self := OSSFuzz.__init__ Stub.oss_fuzz_config in
  let build_dir := "/tmp/run1/cifuzz-latest-build" in
  let url :=
    "https://storage.googleapis.com/clusterfuzz-builds/curl/curl-address-20230101.zip" in
  let result :=
    download_latest_build env (OSSFuzzObject self) "/tmp/run1"
      Stub.empty_world in
  fst (OSSFuzz.get_latest_build_name env self
         (snd (os.makedirs build_dir Stub.empty_world)))
  = Ret (Some "curl-address-20230101.zip")
  ∧ (∃ added,
       trace (snd result) = (trace Stub.empty_world ++ added)%list
       ∧ ∀ u dst, In (EvDownloadAndUnpackZip u dst) added →
                  u = url ∧ dst = build_dir)
  ∧ (build_dir ∉ dirs Stub.empty_world → "curl-address-20230101.zip" ≠ "" →
     last (trace (snd result)) = Some (EvDownloadAndUnpackZip url build_dir))
  ∧ url = utils.url_join [GCS_BASE_URL env;
                          "clusterfuzz-builds/curl/curl-address-20230101.zip"].
Proof.
  intros env self build_dir url result.
  assert (fst (OSSFuzz.get_latest_build_name env self
                 (snd (os.makedirs build_dir Stub.empty_world)))
          = Ret (Some "curl-address-20230101.zip")) as Hresolved
    by (vm_compute; reflexivity).
  split; [exact Hresolved|].
  pose proof (OSSFuzz_download_latest_build_url env self "/tmp/run1"
                Stub.empty_world "curl-address-20230101.zip" Hresolved)
    as (Hall & Hlast & Hcurl).
  split; [exact Hall|]. split; [exact Hlast|].
  exact (Hcurl eq_refl eq_refl).
Defined.

(** C9, as stated, fails when the fetch of the version file fails with
    anything but an [HTTPError]: the [except] clause of
    [get_latest_build_name] names [urllib.error.HTTPError] only, so a
    [URLError] is raised by [get_latest_build_name] and by
    [OSSFuzz.download_latest_build]. *)
Lemma version_fetch_failure_can_raise :
  let env := Stub.env true None (Raise Stub.url_error) in
  let self := OSSFuzz.__init__ Stub.oss_fuzz_config in
  fst (urlopen env (OSSFuzz.version_url env self) Stub.empty_world)
  = Raise Stub.url_error
  ∧ fst (OSSFuzz.get_latest_build_name env self Stub.empty_world)
    = Raise Stub.url_error
  ∧ fst (download_latest_build env (OSSFuzzObject self) "/tmp/run1"
           Stub.empty_world)
    = Raise Stub.url_error.
Proof. repeat split; vm_compute; reflexivity. Qed.

(** C9, amended to the failures the code absorbs.
    [get_latest_build_name] returns [None] when fetching the version file
    raises [HTTPError], raises any other exception of the fetch unchanged,
    and returns the decoded body when the fetch succeeds and the body
    decodes.  [download_latest_build], called without a build directory,
    returns [None] when the filestore reports failure (lite), or the version
    does not resolve, or resolves and the zip download reports failure
    (OSS-Fuzz). *)
Theorem unavailable_build_is_None :
  (∀ env self w e,
     fst (urlopen env (OSSFuzz.version_url env self) w) = Raise e →
     is_HTTPError e = true →
     fst (OSSFuzz.get_latest_build_name env self w) = Ret None)
  ∧ (∀ env self w e,
       fst (urlopen env (OSSFuzz.version_url env self) w) = Raise e →
       is_HTTPError e = false →
       fst (OSSFuzz.get_latest_build_name env self w) = Raise e)
  ∧ (∀ env self w body text,
       fst (urlopen env (OSSFuzz.version_url env self) w) = Ret body →
       decode env body = Ret text →
       fst (OSSFuzz.get_latest_build_name env self w) = Ret (Some text))
  ∧ (∀ env self parent_dir w,
       let build_dir := BaseClusterFuzzDeployment.get_build_dir parent_dir in
       build_dir ∉ dirs w →
       fst (Filestore.download_latest_build (ClusterFuzzLite.filestore self)
              (ClusterFuzzLite._get_build_name self) build_dir
              (snd (os.makedirs build_dir w))) = false →
       fst (download_latest_build env (LiteObject self) parent_dir w)
       = Ret None)
  ∧ (∀ env self parent_dir w,
       let build_dir := BaseClusterFuzzDeployment.get_build_dir parent_dir in
       build_dir ∉ dirs w →
       fst (OSSFuzz.get_latest_build_name env self
              (snd (os.makedirs build_dir w))) = Ret None →
       fst (download_latest_build env (OSSFuzzObject self) parent_dir w)
       = Ret None)
  ∧ (∀ env self parent_dir w name,
       let build_dir := BaseClusterFuzzDeployment.get_build_dir parent_dir in
       let resolved :=
         OSSFuzz.get_latest_build_name env self
           (snd (os.makedirs build_dir w)) in
       build_dir ∉ dirs w →
       fst resolved = Ret (Some name) →
       fst (download_and_unpack_zip env (OSSFuzz.build_url env self name)
              build_dir (snd resolved)) = false →
       fst (download_latest_build env (OSSFuzzObject self) parent_dir w)
       = Ret None).
Proof.
  repeat split.
  - intros env self w e Hfetch Hhttp.
    rewrite get_latest_build_name_unfold, Hfetch, Hhttp. reflexivity.
  - intros env self w e Hfetch Hother.
    rewrite get_latest_build_name_unfold, Hfetch, Hother. reflexivity.
  - intros env self w body text Hfetch Hdecode.
    rewrite get_latest_build_name_unfold, Hfetch, Hdecode. reflexivity.
  - intros env self parent_dir w build_dir Hout Hfail.
    unfold download_latest_build.
    rewrite Lite_download_latest_build_unfold. fold build_dir.
    rewrite (bool_decide_false _ Hout), Hfail. reflexivity.
  - intros env self parent_dir w build_dir Hout Hnone.
    unfold download_latest_build.
    rewrite OSSFuzz_download_latest_build_unfold. fold build_dir.
    rewrite (bool_decide_false _ Hout), Hnone. reflexivity.
  - intros env self parent_dir w name build_dir resolved Hout Hname Hfail.
    unfold download_latest_build.
    rewrite OSSFuzz_download_latest_build_unfold. fold build_dir.
    fold resolved.
    rewrite (bool_decide_false _ Hout), Hname.
    destruct (String.eqb name ""); [reflexivity|].
    cbn zeta. rewrite Hfail. reflexivity.
Qed.

(** C9 on stubs: a version file that answers 404, a fetch that times out,
    a version file that names a build, a filestore without the build, and a
    zip download that fails. *)
Lemma unavailable_build_is_None_witness :
  let self := OSSFuzz.__init__ Stub.oss_fuzz_config in
  let absent := Stub.env false None (Raise Stub.http_404) in
  let offline := Stub.env false None (Raise Stub.url_error) in
  let broken := Stub.env false None (Ret Stub.version_body) in
  let lite := ClusterFuzzLite.__init__ absent Stub.lite_config in
  fst (OSSFuzz.get_latest_build_name absent self Stub.empty_world) = Ret None
  ∧ fst (OSSFuzz.get_latest_build_name offline self Stub.empty_world)
    = Raise Stub.url_error
  ∧ fst (OSSFuzz.get_latest_build_name broken self Stub.empty_world)
    = Ret (Some "curl-address-20230101.zip")
  ∧ fst (download_latest_build absent (LiteObject lite) "/tmp/run1"
           Stub.empty_world) = Ret None
  ∧ fst (download_latest_build absent (OSSFuzzObject self) "/tmp/run1"
           Stub.empty_world) = Ret None
  ∧ fst (download_latest_build broken (OSSFuzzObject self) "/tmp/run1"
           Stub.empty_world) = Ret None.
Proof.
  intros self absent offline broken lite.
  destruct unavailable_build_is_None
    as (Hhttp & Hother & Hbody & Hlite & Hnone & Hzip).
  split; [|split; [|split; [|split; [|split]]]].
  - apply (Hhttp absent self Stub.empty_world Stub.http_404); reflexivity.
  - apply (Hother offline self Stub.empty_world Stub.url_error); reflexivity.
  - apply (Hbody broken self Stub.empty_world Stub.version_body); reflexivity.
  - apply (Hlite absent lite "/tmp/run1" Stub.empty_world);
      [apply not_elem_of_empty | reflexivity].
  - apply (Hnone absent self "/tmp/run1" Stub.empty_world);
      [apply not_elem_of_empty | vm_compute; reflexivity].
  - apply (Hzip broken self "/tmp/run1" Stub.empty_world
             "curl-address-20230101.zip");
      [apply not_elem_of_empty | vm_compute; reflexivity | reflexivity].
Defined.

(** ** Scenarios of the specification *)

Example qualify_qualified_name :
  OSSFuzz.project_qualified_fuzz_target_name
    (OSSFuzz.__init__ (mk_Config "proj" "address" INTERNAL_GITHUB))
    "proj_target"
  = "proj_target".
Proof. reflexivity. Qed.

Example qualify_plain_name :
  OSSFuzz.project_qualified_fuzz_target_name
    (OSSFuzz.__init__ (mk_Config "proj" "address" INTERNAL_GITHUB)) "target"
  = "proj_target".
Proof. reflexivity. Qed.

(** Lite, project [curl], sanitizer [address]: the first call asks the
    filestore for [cifuzz-build-address] once, the second asks for nothing. *)
Example lite_end_to_end :
  let env := Stub.env true None (Ret []) in
  (let* d := get_clusterfuzz_deployment env Stub.lite_config in
   let* first := download_latest_build env d "/tmp/run1" in
   let* second := download_latest_build env d "/tmp/run1" in
   ret (first, second)) Stub.empty_world
  = (Ret (Some "/tmp/run1/cifuzz-latest-build",
          Some "/tmp/run1/cifuzz-latest-build"),
     {| dirs := {[ "/tmp/run1/cifuzz-latest-build" ]} ∪ ∅;
        trace := [EvLog INFO "Using ClusterFuzzLite as ClusterFuzz deployment.";
                  EvMakedirs "/tmp/run1/cifuzz-latest-build";
                  EvFilestoreDownloadLatestBuild "cifuzz-build-address"
                    "/tmp/run1/cifuzz-latest-build"] |}).
Proof. vm_compute. reflexivity. Qed.

(** A filestore that raises: the corpus download raises the same error
    after logging it, the corpus upload logs it and returns. *)
Example lite_corpus_errors :
  let env := Stub.env true (Some Stub.filestore_error) (Ret []) in
  let self := ClusterFuzzLite.__init__ env Stub.lite_config in
  fst (ClusterFuzzLite.download_corpus self "fuzz" "/tmp/run1"
         Stub.empty_world)
  = Raise Stub.filestore_error
  ∧ ClusterFuzzLite.upload_corpus self "fuzz" "/tmp/out" Stub.empty_world
    = (Ret tt,
       {| dirs := ∅;
          trace := [EvLog INFO "Uploading corpus for fuzz";
                    EvFilestoreUploadCorpus "corpus-fuzz" "/tmp/out";
                    EvLog ERROR
                      "Failed to upload corpus for target: fuzz. Error: artifact not found."] |}).
Proof. split; reflexivity. Qed.

(** A zip download that fails: the OSS-Fuzz corpus download still returns
    the directory. *)
Example oss_fuzz_corpus_fetch_failure :
  fst (OSSFuzz.download_corpus (Stub.env false None (Ret []))
         (OSSFuzz.__init__ Stub.oss_fuzz_config) "fuzz" "/tmp/run1"
         Stub.empty_world)
  = Ret "/tmp/run1/cifuzz-corpus/fuzz".
Proof. reflexivity. Qed.

(** ** Directory layout *)

Lemma append_nil_r (s : string) : s ++ "" = s.
Proof.
  induction s as [|c s IH]; [done|].
  change (String c (s ++ "") = String c s). by rewrite IH.
Qed.

(** A part that does not start with a slash is appended to the path, after a
    slash if the path needs one: [os.path.join(a, '')] is [a] with its
    trailing slash. *)
Lemma join_step_relative (a b : string) :
  os.path.startswith b "/" = false →
  os.path.join_step a b = os.path.join_step a "" ++ b.
Proof.
  intros Hb. unfold os.path.join_step, os.path.sep. rewrite Hb.
  change (os.path.startswith "" "/") with false. cbv iota.
  destruct (String.eqb a "" || os.path.endswith_sep a).
  - by rewrite append_nil_r.
  - change ("/" ++ "") with "/". by rewrite append_assoc.
Qed.

(** Joining a part to a path that is not empty and does not end with a
    slash puts a slash in between. *)
Lemma join_step_after_segment (a b : string) :
  a ≠ "" →
  os.path.endswith_sep a = false →
  os.path.startswith b "/" = false →
  os.path.join_step a b = a ++ "/" ++ b.
Proof.
  intros Ha Hend Hb. unfold os.path.join_step, os.path.sep.
  rewrite Hb, Hend. destruct a; [done|reflexivity].
Qed.

Lemma get_build_dir_root (parent_dir : string) :
  BaseClusterFuzzDeployment.get_build_dir parent_dir
  = os.path.join parent_dir [""] ++ "cifuzz-latest-build".
Proof.
  unfold BaseClusterFuzzDeployment.get_build_dir, os.path.join. cbn [fold_left].
  by apply join_step_relative.
Qed.

Lemma get_corpus_dir_relative (target_name parent_dir : string) :
  os.path.startswith target_name "/" = false →
  BaseClusterFuzzDeployment.get_corpus_dir target_name parent_dir
  = os.path.join parent_dir [""] ++ "cifuzz-corpus/" ++ target_name.
Proof.
  intros Ht.
  unfold BaseClusterFuzzDeployment.get_corpus_dir, os.path.join.
  cbn [fold_left].
  rewrite (join_step_relative parent_dir
             BaseClusterFuzzDeployment.CORPUS_DIR_NAME) by done.
  rewrite join_step_after_segment.
  - rewrite append_assoc. reflexivity.
  - intros H. apply (f_equal (λ s, String.eqb s "")) in H.
    rewrite append_nonempty in H; done.
  - by rewrite endswith_sep_app.
  - exact Ht.
Qed.

(** [os.path.join(a, '')] spelled out: nothing is added to a path that is
    empty or ends with a slash, a slash is added to any other. *)
Lemma join_root_cases (a x : string) :
  os.path.join a [""] ++ x
  = if String.eqb a "" || os.path.endswith_sep a then a ++ x
    else a ++ "/" ++ x.
Proof.
  unfold os.path.join. cbn [fold_left].
  unfold os.path.join_step, os.path.sep.
  change (os.path.startswith "" "/") with false. cbv iota.
  destruct (String.eqb a "" || os.path.endswith_sep a).
  - by rewrite append_nil_r.
  - change ("/" ++ "") with "/". by rewrite append_assoc.
Qed.

(** X1: the build directory is the parent directory followed by
    [cifuzz-latest-build], and the corpus directory of a target the parent
    directory followed by [cifuzz-corpus/<target>]: directly after a parent
    that is empty or ends with a slash, after one added slash otherwise.  A
    target name that starts with a slash is taken as an absolute path: the
    corpus directory is then the target name alone. *)
Theorem directory_layout (target_name parent_dir : string) :
  let under name :=
    if String.eqb parent_dir "" || os.path.endswith_sep parent_dir
    then parent_dir ++ name
    else parent_dir ++ "/" ++ name in
  BaseClusterFuzzDeployment.get_build_dir parent_dir
  = under "cifuzz-latest-build"
  ∧ BaseClusterFuzzDeployment.get_corpus_dir target_name parent_dir
    = if os.path.startswith target_name "/" then target_name
      else under ("cifuzz-corpus/" ++ target_name).
Proof.
  intros under. subst under. cbv beta. split.
  - rewrite get_build_dir_root. apply join_root_cases.
  - destruct (os.path.startswith target_name "/") eqn:Ht.
    + unfold BaseClusterFuzzDeployment.get_corpus_dir, os.path.join.
      cbn [fold_left]. unfold os.path.join_step at 1. unfold os.path.sep.
      by rewrite Ht.
    + rewrite get_corpus_dir_relative by done. apply join_root_cases.
Qed.

(** ** Corpus downloads are never cached *)

(** [OSSFuzz.download_corpus], step by step. *)
Lemma OSSFuzz_download_corpus_unfold
  (env : Env) (self : OSSFuzz.t) (target_name parent_dir : string) (w : World) :
  let corpus_dir :=
    BaseClusterFuzzDeployment.get_corpus_dir target_name parent_dir in
  let url := OSSFuzz.corpus_url env self target_name in
  OSSFuzz.download_corpus env self target_name parent_dir w
  = (Ret corpus_dir,
     {| dirs := snd (download_and_unpack_zip env url corpus_dir
                       (snd (os.makedirs corpus_dir w)));
        trace := (trace w ++ [EvMakedirs corpus_dir;
                              EvDownloadAndUnpackZip url corpus_dir])%list |}).
Proof.
  intros corpus_dir url.
  unfold OSSFuzz.download_corpus, bind, call, ret.
  fold corpus_dir. fold url. unfold os.makedirs. cbn [snd trace dirs].
  destruct (download_and_unpack_zip env url corpus_dir _) as [ok d].
  cbn [snd]. by rewrite <- app_assoc.
Qed.

(** X3: on both backends every call of [download_corpus] creates the corpus
    directory and then fetches the corpus exactly once, whether or not the
    directory existed before: unlike builds, corpora are not cached. *)
Theorem download_corpus_always_fetches
  (env : Env) (d : Deployment) (target_name parent_dir : string) (w : World) :
  let corpus_dir :=
    BaseClusterFuzzDeployment.get_corpus_dir target_name parent_dir in
  ∃ before after,
    trace (snd (download_corpus env d target_name parent_dir w))
    = (trace w ++ before ++ EvMakedirs corpus_dir :: after)%list
    ∧ count_corpus_fetches before = 0
    ∧ count_corpus_fetches after = 1.
Proof.
  intros corpus_dir. destruct d as [self|self]; unfold download_corpus.
  - rewrite Lite_download_corpus_unfold. fold corpus_dir.
    unfold bind, logging.debug, os.makedirs, record. cbn [snd fst trace dirs].
    destruct (fst (Filestore.download_corpus _ _ corpus_dir _)) as [u|err];
      cbn [snd trace].
    + eexists [EvLog DEBUG _], [EvFilestoreDownloadCorpus _ _].
      split; [|split; reflexivity].
      rewrite <- !app_assoc. reflexivity.
    + eexists [EvLog DEBUG _], [EvFilestoreDownloadCorpus _ _; EvLog ERROR _].
      split; [|split; reflexivity].
      rewrite <- !app_assoc. reflexivity.
  - rewrite OSSFuzz_download_corpus_unfold. fold corpus_dir.
    cbn [snd trace]. eexists [], [EvDownloadAndUnpackZip _ _].
    split; [|split; reflexivity].
    reflexivity.
Qed.

(** X4: when the corpus collaborator never removes a directory, the corpus
    directory exists after [download_corpus], also when the call raised, and
    a call that returns gives back that directory. *)
Theorem download_corpus_directory_exists
  (env : Env) (d : Deployment) (target_name parent_dir : string) (w : World) :
  corpus_fetch_keeps_dirs env d →
  let corpus_dir :=
    BaseClusterFuzzDeployment.get_corpus_dir target_name parent_dir in
  let result := download_corpus env d target_name parent_dir w in
  corpus_dir ∈ dirs (snd result)
  ∧ ∀ p, fst result = Ret p → p = corpus_dir.
Proof.
  intros Hkeep corpus_dir result. subst result.
  destruct d as [self|self]; unfold download_corpus;
    cbn [corpus_fetch_keeps_dirs] in Hkeep.
  - rewrite Lite_download_corpus_unfold. fold corpus_dir.
    set (w1 := snd (bind _ _ w)).
    assert (corpus_dir ∈ dirs w1) as Hin.
    { subst w1. unfold bind, logging.debug, os.makedirs, record.
      cbn [snd dirs]. set_solver. }
    pose proof (Hkeep (ClusterFuzzLite._get_corpus_name target_name)
                  corpus_dir w1 corpus_dir Hin) as Hafter.
    destruct (fst (Filestore.download_corpus _ _ corpus_dir w1)) as [u|err];
      cbn [fst snd dirs record]; (split; [exact Hafter|]); congruence.
  - rewrite OSSFuzz_download_corpus_unfold. fold corpus_dir.
    cbn [fst snd dirs]. split; [|congruence].
    apply Hkeep. unfold os.makedirs. cbn [snd dirs]. set_solver.
Qed.

(** X4 against a filestore that raises: the directory is there all the
    same. *)
Lemma download_corpus_directory_exists_witness :
  let env := Stub.env true (Some Stub.filestore_error) (Ret []) in
  let d := LiteObject (ClusterFuzzLite.__init__ env Stub.lite_config) in
  let result := download_corpus env d "fuzz" "/tmp/run1" Stub.empty_world in
  corpus_fetch_keeps_dirs env d
  ∧ "/tmp/run1/cifuzz-corpus/fuzz" ∈ dirs (snd result)
  ∧ ∀ p, fst result = Ret p → p = "/tmp/run1/cifuzz-corpus/fuzz".
Proof.
  intros env d result.
  assert (corpus_fetch_keeps_dirs env d) as Hkeep.
  { intros name dst w. cbn. reflexivity. }
  split; [exact Hkeep|].
  exact (download_corpus_directory_exists env d "fuzz" "/tmp/run1"
           Stub.empty_world Hkeep).
Defined.

(** ** Qualified names and URLs *)

Lemma qualified_name_startswith_prefix (self : OSSFuzz.t) (target_name : string) :
  os.path.startswith
    (OSSFuzz.project_qualified_fuzz_target_name self target_name)
    (project_name (OSSFuzz.config self) ++ "_") = true.
Proof.
  unfold OSSFuzz.project_qualified_fuzz_target_name.
  destruct (os.path.startswith target_name _) eqn:E; cbn [negb]; [exact E|].
  apply startswith_app.
Qed.

(** X5: the archive fetched for a target is the one fetched for the target
    name with the project prefix put in front by hand: both names give the
    same corpus URL, and the qualified name in it always starts with the
    project name and an underscore. *)
Theorem corpus_url_qualification
  (env : Env) (self : OSSFuzz.t) (target_name : string) :
  let prefix := project_name (OSSFuzz.config self) ++ "_" in
  os.path.startswith
    (OSSFuzz.project_qualified_fuzz_target_name self target_name) prefix = true
  ∧ (os.path.startswith target_name prefix = false →
     OSSFuzz.corpus_url env self (prefix ++ target_name)
     = OSSFuzz.corpus_url env self target_name).
Proof.
  intros prefix. split; [apply qualified_name_startswith_prefix|].
  intros Hplain. unfold OSSFuzz.corpus_url.
  do 3 f_equal. unfold OSSFuzz.project_qualified_fuzz_target_name.
  fold prefix. by rewrite Hplain, startswith_app.
Qed.

Lemma corpus_url_qualification_witness :
  let env := Stub.env true None (Ret []) in
  let self := OSSFuzz.__init__ Stub.oss_fuzz_config in
  os.path.startswith "fuzz" "curl_" = false
  ∧ OSSFuzz.corpus_url env self "curl_fuzz" = OSSFuzz.corpus_url env self "fuzz".
Proof.
  intros env self. split; [reflexivity|].
  exact (proj2 (corpus_url_qualification env self "fuzz") eq_refl).
Defined.

Lemma append_neq_nil (a b : string) : b ≠ "" → a ++ b ≠ "".
Proof.
  intros Hb H. apply (f_equal (λ s, String.eqb s "")) in H.
  by rewrite append_nonempty in H.
Qed.

Lemma endswith_sep_cons_sep (s : string) :
  s ≠ "" → os.path.endswith_sep ("/" ++ s) = os.path.endswith_sep s.
Proof. by destruct s. Qed.

(** The URL of an object [x] of a project in the builds bucket. *)
Lemma url_join_builds (base project x : string) :
  project ≠ "" →
  os.path.startswith project "/" = false →
  os.path.endswith_sep project = false →
  os.path.startswith x "/" = false →
  utils.url_join [base; OSSFuzz.CLUSTERFUZZ_BUILDS; project; x]
  = os.path.join base [""] ++ "clusterfuzz-builds/" ++ project ++ "/" ++ x.
Proof.
  intros Hne Hstart Hend Hx.
  unfold utils.url_join, os.path.join. cbn [fold_left].
  rewrite (join_step_relative base OSSFuzz.CLUSTERFUZZ_BUILDS) by done.
  set (root := os.path.join_step base "").
  rewrite (join_step_after_segment (root ++ OSSFuzz.CLUSTERFUZZ_BUILDS) project).
  - rewrite join_step_after_segment.
    + rewrite !append_assoc. reflexivity.
    + by apply append_neq_nil.
    + rewrite endswith_sep_app by done.
      by rewrite endswith_sep_cons_sep.
    + exact Hx.
  - by apply append_neq_nil.
  - by rewrite endswith_sep_app.
  - exact Hstart.
Qed.

(** X6: for a project name that is not empty, does not start with a slash
    and does not end with one, the version file of the project is fetched
    from
    [<base>/clusterfuzz-builds/<project>/<project>-<sanitizer>-latest.version]
    and a build named [name] from [<base>/clusterfuzz-builds/<project>/<name>],
    with exactly one slash after the base URL. *)
Theorem builds_bucket_urls (env : Env) (self : OSSFuzz.t) (name : string) :
  let project := project_name (OSSFuzz.config self) in
  let root := os.path.join (GCS_BASE_URL env) [""] in
  project ≠ "" →
  os.path.startswith project "/" = false →
  os.path.endswith_sep project = false →
  os.path.startswith name "/" = false →
  OSSFuzz.version_url env self
  = root ++ "clusterfuzz-builds/" ++ project ++ "/" ++ project ++ "-"
    ++ sanitizer (OSSFuzz.config self) ++ "-latest.version"
  ∧ OSSFuzz.build_url env self name
    = root ++ "clusterfuzz-builds/" ++ project ++ "/" ++ name.
Proof.
  intros project root Hne Hstart Hend Hname. split.
  - unfold OSSFuzz.version_url, OSSFuzz.VERSION_STRING. fold project.
    apply url_join_builds; try done.
    by rewrite startswith_sep_app.
  - unfold OSSFuzz.build_url. fold project. by apply url_join_builds.
Qed.

Lemma builds_bucket_urls_witness :
  let env := Stub.env true None (Ret []) in
  let self := OSSFuzz.__init__ Stub.oss_fuzz_config in
  OSSFuzz.version_url env self
  = "https://storage.googleapis.com/clusterfuzz-builds/curl/curl-address-latest.version"
  ∧ OSSFuzz.build_url env self "curl-address-20230101.zip"
    = "https://storage.googleapis.com/clusterfuzz-builds/curl/curl-address-20230101.zip".
Proof.
  intros env self.
  exact (builds_bucket_urls env self "curl-address-20230101.zip"
           ltac:(discriminate) eq_refl eq_refl eq_refl).
Defined.

(** X7: for a project name and a target name that do not start with a
    slash, and a target name that does not end with one, the corpus of the
    target is fetched from
    [<base>/<project>-backup.clusterfuzz-external.appspot.com/corpus/libFuzzer/<qualified
    target>/public.zip]. *)
Theorem corpus_url_shape (env : Env) (self : OSSFuzz.t) (target_name : string) :
  let project := project_name (OSSFuzz.config self) in
  os.path.startswith project "/" = false →
  os.path.startswith target_name "/" = false →
  os.path.endswith_sep target_name = false →
  OSSFuzz.corpus_url env self target_name
  = os.path.join (GCS_BASE_URL env) [""] ++ project
    ++ "-backup.clusterfuzz-external.appspot.com/corpus/libFuzzer/"
    ++ OSSFuzz.project_qualified_fuzz_target_name self target_name
    ++ "/public.zip".
Proof.
  intros project Hproject Hstart Hend.
  set (q := OSSFuzz.project_qualified_fuzz_target_name self target_name).
  set (host := "-backup.clusterfuzz-external.appspot.com/corpus/libFuzzer/").
  assert (os.path.startswith (project ++ "_") "/" = false) as Hprefix.
  { destruct project; [reflexivity|]. by rewrite startswith_sep_app. }
  assert (q ≠ "" ∧ os.path.startswith q "/" = false
          ∧ os.path.endswith_sep q = false) as (Hq & Hqstart & Hqend).
  { subst q. unfold OSSFuzz.project_qualified_fuzz_target_name. fold project.
    destruct (os.path.startswith target_name (project ++ "_")) eqn:E;
      cbn [negb].
    - repeat split; try done. intros ->. by destruct project.
    - assert (project ++ "_" ≠ "") as Hne by (by apply append_neq_nil).
      repeat split.
      + by destruct (project ++ "_").
      + by rewrite startswith_sep_app.
      + destruct target_name as [|c t]; [|by rewrite endswith_sep_app].
        rewrite append_nil_r. by rewrite endswith_sep_app. }
  unfold OSSFuzz.corpus_url, utils.url_join, os.path.join. cbn [fold_left].
  fold project. fold host. fold q.
  assert (os.path.startswith (project ++ host) "/" = false) as Hhost.
  { destruct project; [reflexivity|]. by rewrite startswith_sep_app. }
  rewrite (join_step_relative (GCS_BASE_URL env) (project ++ host) Hhost).
  set (root := os.path.join_step (GCS_BASE_URL env) "").
  assert (os.path.join_step (root ++ project ++ host) q
          = (root ++ project ++ host) ++ q) as ->.
  { unfold os.path.join_step, os.path.sep. rewrite Hqstart.
    rewrite <- (append_assoc root project host).
    rewrite (endswith_sep_app (root ++ project) host) by done.
    change (os.path.endswith_sep host) with true.
    by rewrite orb_true_r. }
  rewrite join_step_after_segment.
  - rewrite !append_assoc. reflexivity.
  - by apply append_neq_nil.
  - by rewrite endswith_sep_app.
  - reflexivity.
Qed.

Lemma corpus_url_shape_witness :
  let env := Stub.env true None (Ret []) in
  let self := OSSFuzz.__init__ Stub.oss_fuzz_config in
  OSSFuzz.corpus_url env self "fuzz"
  = "https://storage.googleapis.com/curl-backup.clusterfuzz-external.appspot.com/corpus/libFuzzer/curl_fuzz/public.zip".
Proof.
  intros env self.
  exact (corpus_url_shape env self "fuzz" eq_refl eq_refl eq_refl).
Defined.

(** ** Errors that are not absorbed *)

(** X8: an exception of [urlopen] that is not an [HTTPError] is not caught:
    [get_latest_build_name] raises it, logs nothing, and
    [OSSFuzz.download_latest_build], called without a build directory,
    raises it too, after having created the directory. *)
Theorem get_latest_build_name_propagates_other_errors
  (env : Env) (self : OSSFuzz.t) (parent_dir : string) (w : World) (e : exn) :
  let url := OSSFuzz.version_url env self in
  let build_dir := BaseClusterFuzzDeployment.get_build_dir parent_dir in
  is_HTTPError e = false →
  (fst (urlopen env url w) = Raise e →
   fst (OSSFuzz.get_latest_build_name env self w) = Raise e
   ∧ trace (snd (OSSFuzz.get_latest_build_name env self w))
     = (trace w ++ [EvUrlopen url])%list)
  ∧ (build_dir ∉ dirs w →
     fst (urlopen env url (snd (os.makedirs build_dir w))) = Raise e →
     fst (download_latest_build env (OSSFuzzObject self) parent_dir w)
     = Raise e
     ∧ trace (snd (download_latest_build env (OSSFuzzObject self) parent_dir w))
       = (trace w ++ [EvMakedirs build_dir; EvUrlopen url])%list).
Proof.
  intros url build_dir Hother. split.
  - intros Hfetch. rewrite get_latest_build_name_unfold. fold url.
    rewrite Hfetch, Hother. by split.
  - intros Hout Hfetch. unfold download_latest_build.
    rewrite OSSFuzz_download_latest_build_unfold. fold build_dir.
    rewrite (bool_decide_false _ Hout).
    rewrite get_latest_build_name_unfold. fold url.
    rewrite Hfetch, Hother. cbn [fst snd trace]. split; [reflexivity|].
    unfold os.makedirs. cbn [snd trace]. by rewrite <- app_assoc.
Qed.

Lemma get_latest_build_name_propagates_other_errors_witness :
  let env := Stub.env true None (Raise Stub.url_error) in
  let self := OSSFuzz.__init__ Stub.oss_fuzz_config in
  (fst (OSSFuzz.get_latest_build_name env self Stub.empty_world)
   = Raise Stub.url_error
   ∧ trace (snd (OSSFuzz.get_latest_build_name env self Stub.empty_world))
     = (trace Stub.empty_world ++ [EvUrlopen (OSSFuzz.version_url env self)])%list)
  ∧ fst (download_latest_build env (OSSFuzzObject self) "/tmp/run1"
           Stub.empty_world)
    = Raise Stub.url_error.
Proof.
  intros env self.
  destruct (get_latest_build_name_propagates_other_errors env self "/tmp/run1"
              Stub.empty_world Stub.url_error eq_refl) as [Hname Hbuild].
  split; [exact (Hname eq_refl)|].
  exact (proj1 (Hbuild (not_elem_of_empty _) eq_refl)).
Defined.

(** X9: a call of [download_latest_build] that raised has still left the
    build directory behind, so the next call with the same parent directory
    returns the build directory without doing anything: the error is not
    seen again, and no build is fetched. *)
Theorem download_latest_build_error_is_cached
  (env : Env) (d : Deployment) (parent_dir : string) (w : World) (e : exn) :
  build_fetch_keeps_dirs env d →
  let first := download_latest_build env d parent_dir w in
  fst first = Raise e →
  download_latest_build env d parent_dir (snd first)
  = (Ret (Some (BaseClusterFuzzDeployment.get_build_dir parent_dir)), snd first)
  ∧ count_build_fetches (trace (snd first)) = count_build_fetches (trace w).
Proof.
  intros Hkeep first Hraise. split.
  - apply download_latest_build_cache_hit.
    by apply download_latest_build_creates_dir.
  - subst first. destruct d as [self|self];
      unfold download_latest_build in *.
    + rewrite Lite_download_latest_build_unfold in Hraise.
      by destruct (bool_decide _).
    + rewrite OSSFuzz_download_latest_build_unfold in Hraise |- *.
      destruct (bool_decide _); [done|].
      destruct (get_latest_build_name_trace env self
                  (snd (os.makedirs
                          (BaseClusterFuzzDeployment.get_build_dir parent_dir)
                          w))) as (logs & Htrace & Hlogs).
      destruct (fst (OSSFuzz.get_latest_build_name env self _))
        as [[name|]|e']; [|done|].
      * destruct (String.eqb name ""); done.
      * cbn [snd]. rewrite Htrace. unfold os.makedirs. cbn [snd trace].
        unfold count_build_fetches.
        rewrite !List.filter_app. cbn [List.filter is_build_fetch].
        rewrite Hlogs, !app_nil_r. reflexivity.
Qed.

Lemma download_latest_build_error_is_cached_witness :
  let env := Stub.env true None (Raise Stub.url_error) in
  let d := OSSFuzzObject (OSSFuzz.__init__ Stub.oss_fuzz_config) in
  let first := download_latest_build env d "/tmp/run1" Stub.empty_world in
  build_fetch_keeps_dirs env d
  ∧ fst first = Raise Stub.url_error
  ∧ download_latest_build env d "/tmp/run1" (snd first)
    = (Ret (Some "/tmp/run1/cifuzz-latest-build"), snd first)
  ∧ count_build_fetches (trace (snd first))
    = count_build_fetches (trace Stub.empty_world).
Proof.
  intros env d first.
  assert (build_fetch_keeps_dirs env d) as Hkeep.
  { split; intros; intros w; cbn; reflexivity. }
  assert (fst first = Raise Stub.url_error) as Hraise
    by (vm_compute; reflexivity).
  split; [exact Hkeep|]. split; [exact Hraise|].
  exact (download_latest_build_error_is_cached env d "/tmp/run1"
           Stub.empty_world Stub.url_error Hkeep Hraise).
Defined.

(** ** Outcomes of a build download *)

(** X10: a version file that decodes to the empty string counts as no
    build: [OSSFuzz.download_latest_build] returns [None] and stops right
    after resolving the name, without any zip download. *)
Theorem empty_version_is_no_build
  (env : Env) (self : OSSFuzz.t) (parent_dir : string) (w : World) :
  let build_dir := BaseClusterFuzzDeployment.get_build_dir parent_dir in
  let resolved :=
    OSSFuzz.get_latest_build_name env self (snd (os.makedirs build_dir w)) in
  build_dir ∉ dirs w →
  fst resolved = Ret (Some "") →
  download_latest_build env (OSSFuzzObject self) parent_dir w
  = (Ret None, snd resolved)
  ∧ count_build_fetches (trace (snd resolved)) = count_build_fetches (trace w).
Proof.
  intros build_dir resolved Hout Hempty. split.
  - unfold download_latest_build.
    rewrite OSSFuzz_download_latest_build_unfold. fold build_dir. fold resolved.
    by rewrite (bool_decide_false _ Hout), Hempty.
  - destruct (get_latest_build_name_trace env self
                (snd (os.makedirs build_dir w))) as (logs & Htrace & Hlogs).
    fold resolved in Htrace. rewrite Htrace.
    unfold os.makedirs, count_build_fetches. cbn [snd trace].
    rewrite !List.filter_app. cbn [List.filter is_build_fetch].
    by rewrite Hlogs, !app_nil_r.
Qed.

Lemma empty_version_is_no_build_witness :
  let env := Stub.env true None (Ret []) in
  let self := OSSFuzz.__init__ Stub.oss_fuzz_config in
  let resolved :=
    OSSFuzz.get_latest_build_name env self
      (snd (os.makedirs "/tmp/run1/cifuzz-latest-build" Stub.empty_world)) in
  fst resolved = Ret (Some "")
  ∧ download_latest_build env (OSSFuzzObject self) "/tmp/run1" Stub.empty_world
    = (Ret None, snd resolved)
  ∧ count_build_fetches (trace (snd resolved))
    = count_build_fetches (trace Stub.empty_world).
Proof.
  intros env self resolved.
  assert (fst resolved = Ret (Some "")) as Hempty by (vm_compute; reflexivity).
  split; [exact Hempty|].
  exact (empty_version_is_no_build env self "/tmp/run1" Stub.empty_world
           (not_elem_of_empty _) Hempty).
Defined.

(** X11: the first download of a build that is there returns the build
    directory: on the lite backend when the filestore reports success, on
    OSS-Fuzz when the version file names a build and the zip download
    reports success; in both cases the one fetch is the last thing done. *)
Theorem available_build_is_downloaded :
  (∀ env self parent_dir w,
     let build_dir := BaseClusterFuzzDeployment.get_build_dir parent_dir in
     let name := ClusterFuzzLite._get_build_name self in
     build_dir ∉ dirs w →
     fst (Filestore.download_latest_build (ClusterFuzzLite.filestore self)
            name build_dir (snd (os.makedirs build_dir w))) = true →
     fst (download_latest_build env (LiteObject self) parent_dir w)
     = Ret (Some build_dir)
     ∧ trace (snd (download_latest_build env (LiteObject self) parent_dir w))
       = (trace w ++ [EvMakedirs build_dir;
                      EvFilestoreDownloadLatestBuild name build_dir])%list)
  ∧ (∀ env self parent_dir w name,
       let build_dir := BaseClusterFuzzDeployment.get_build_dir parent_dir in
       let resolved :=
         OSSFuzz.get_latest_build_name env self
           (snd (os.makedirs build_dir w)) in
       let url := OSSFuzz.build_url env self name in
       build_dir ∉ dirs w →
       fst resolved = Ret (Some name) →
       name ≠ "" →
       fst (download_and_unpack_zip env url build_dir (snd resolved)) = true →
       fst (download_latest_build env (OSSFuzzObject self) parent_dir w)
       = Ret (Some build_dir)
       ∧ last (trace (snd (download_latest_build env (OSSFuzzObject self)
                             parent_dir w)))
         = Some (EvDownloadAndUnpackZip url build_dir)).
Proof.
  split.
  - intros env self parent_dir w build_dir name Hout Hok.
    unfold download_latest_build.
    rewrite Lite_download_latest_build_unfold. fold build_dir. fold name.
    by rewrite (bool_decide_false _ Hout), Hok.
  - intros env self parent_dir w name build_dir resolved url Hout Hname Hne Hok.
    unfold download_latest_build.
    rewrite OSSFuzz_download_latest_build_unfold. fold build_dir.
    fold resolved.
    apply String.eqb_neq in Hne.
    rewrite (bool_decide_false _ Hout), Hname, Hne. cbn zeta. fold url.
    rewrite Hok. cbn [fst snd trace]. split; [reflexivity|apply last_snoc].
Qed.

Lemma available_build_is_downloaded_witness :
  let env := Stub.env true None (Ret Stub.version_body) in
  let lite := ClusterFuzzLite.__init__ env Stub.lite_config in
  let self := OSSFuzz.__init__ Stub.oss_fuzz_config in
  fst (download_latest_build env (LiteObject lite) "/tmp/run1" Stub.empty_world)
  = Ret (Some "/tmp/run1/cifuzz-latest-build")
  ∧ fst (download_latest_build env (OSSFuzzObject self) "/tmp/run1"
           Stub.empty_world)
    = Ret (Some "/tmp/run1/cifuzz-latest-build").
Proof.
  intros env lite self.
  destruct available_build_is_downloaded as [Hlite Hoss].
  split.
  - exact (proj1 (Hlite env lite "/tmp/run1" Stub.empty_world
                    (not_elem_of_empty _) eq_refl)).
  - assert (fst (OSSFuzz.get_latest_build_name env self
                   (snd (os.makedirs "/tmp/run1/cifuzz-latest-build"
                           Stub.empty_world)))
            = Ret (Some "curl-address-20230101.zip")) as Hname
      by (vm_compute; reflexivity).
    exact (proj1 (Hoss env self "/tmp/run1" Stub.empty_world
                    "curl-address-20230101.zip" (not_elem_of_empty _) Hname
                    ltac:(discriminate) eq_refl)).
Defined.

(** X12: when the collaborators never remove a directory, a path returned
    by [download_latest_build] is the build directory and exists. *)
Theorem downloaded_build_dir_exists
  (env : Env) (d : Deployment) (parent_dir : string) (w : World) (p : string) :
  build_fetch_keeps_dirs env d →
  fst (download_latest_build env d parent_dir w) = Ret (Some p) →
  p = BaseClusterFuzzDeployment.get_build_dir parent_dir
  ∧ p ∈ dirs (snd (download_latest_build env d parent_dir w)).
Proof.
  intros Hkeep Hp.
  assert (p = BaseClusterFuzzDeployment.get_build_dir parent_dir) as ->
    by exact (download_latest_build_returns_build_dir _ _ _ _ _ Hp).
  split; [reflexivity|]. by apply download_latest_build_creates_dir.
Qed.

Lemma downloaded_build_dir_exists_witness :
  let env := Stub.env true None (Ret Stub.version_body) in
  let d := LiteObject (ClusterFuzzLite.__init__ env Stub.lite_config) in
  let result := download_latest_build env d "/tmp/run1" Stub.empty_world in
  build_fetch_keeps_dirs env d
  ∧ fst result = Ret (Some "/tmp/run1/cifuzz-latest-build")
  ∧ "/tmp/run1/cifuzz-latest-build"
    = BaseClusterFuzzDeployment.get_build_dir "/tmp/run1"
  ∧ "/tmp/run1/cifuzz-latest-build" ∈ dirs (snd result).
Proof.
  intros env d result.
  assert (build_fetch_keeps_dirs env d) as Hkeep.
  { intros name dst w. cbn. reflexivity. }
  assert (fst result = Ret (Some "/tmp/run1/cifuzz-latest-build")) as Hp
    by reflexivity.
  split; [exact Hkeep|]. split; [exact Hp|].
  exact (downloaded_build_dir_exists env d "/tmp/run1" Stub.empty_world
           "/tmp/run1/cifuzz-latest-build" Hkeep Hp).
Defined.

(** ** Round trips through a filestore *)

Lemma build_name_eqb (a b : ClusterFuzzLite.t) :
  String.eqb (ClusterFuzzLite._get_build_name a)
    (ClusterFuzzLite._get_build_name b)
  = String.eqb (sanitizer (ClusterFuzzLite.config a))
      (sanitizer (ClusterFuzzLite.config b)).
Proof. reflexivity. Qed.

Lemma corpus_name_eqb (t1 t2 : string) :
  String.eqb (ClusterFuzzLite._get_corpus_name t1)
    (ClusterFuzzLite._get_corpus_name t2)
  = String.eqb t1 t2.
Proof. reflexivity. Qed.

(** X13: against a filestore that serves exactly what was uploaded, a build
    uploaded by one lite deployment is found by the first download of
    another lite deployment exactly when the two configurations have the
    same sanitizer; the project name and the directories play no part in the
    name of the build. *)
Theorem build_upload_download_round_trip
  (up_config down_config : Config) (src parent_dir : string) (w : World) :
  let uploader := ClusterFuzzLite.mk up_config Stub.recording_filestore in
  let downloader := ClusterFuzzLite.mk down_config Stub.recording_filestore in
  let build_dir := BaseClusterFuzzDeployment.get_build_dir parent_dir in
  let up := ClusterFuzzLite.upload_latest_build uploader src w in
  build_dir ∉ dirs w →
  uploaded_build (ClusterFuzzLite._get_build_name downloader) (trace w) = false →
  fst up = Ret true
  ∧ fst (ClusterFuzzLite.download_latest_build downloader parent_dir (snd up))
    = Ret (if String.eqb (sanitizer up_config) (sanitizer down_config)
           then Some build_dir else None).
Proof.
  intros uploader downloader build_dir up Hout Hfresh.
  split; [reflexivity|].
  rewrite Lite_download_latest_build_unfold. fold build_dir.
  rewrite (bool_decide_false _ Hout).
  cbn [fst snd trace dirs ClusterFuzzLite.filestore downloader
       Filestore.download_latest_build Stub.recording_filestore].
  subst up. unfold ClusterFuzzLite.upload_latest_build, call, os.makedirs.
  cbn [fst snd trace dirs ClusterFuzzLite.filestore uploader
       Filestore.upload_latest_build Stub.recording_filestore].
  unfold uploaded_build in *. rewrite !existsb_app, Hfresh.
  cbn [existsb]. rewrite !orb_false_r, orb_false_l.
  rewrite (build_name_eqb uploader downloader). reflexivity.
Qed.

Lemma build_upload_download_round_trip_witness :
  let uploader :=
    ClusterFuzzLite.mk (mk_Config "curl" "address" (OTHER_PLATFORM "CI"))
      Stub.recording_filestore in
  let same :=
    ClusterFuzzLite.mk (mk_Config "zlib" "address" (OTHER_PLATFORM "CI"))
      Stub.recording_filestore in
  let other :=
    ClusterFuzzLite.mk (mk_Config "curl" "memory" (OTHER_PLATFORM "CI"))
      Stub.recording_filestore in
  let up :=
    ClusterFuzzLite.upload_latest_build uploader "/out" Stub.empty_world in
  fst (ClusterFuzzLite.download_latest_build same "/tmp/run1" (snd up))
  = Ret (Some "/tmp/run1/cifuzz-latest-build")
  ∧ fst (ClusterFuzzLite.download_latest_build other "/tmp/run1" (snd up))
    = Ret None.
Proof.
  intros uploader same other up. split.
  - exact (proj2 (build_upload_download_round_trip
                    (mk_Config "curl" "address" (OTHER_PLATFORM "CI"))
                    (mk_Config "zlib" "address" (OTHER_PLATFORM "CI"))
                    "/out" "/tmp/run1" Stub.empty_world
                    (not_elem_of_empty _) eq_refl)).
  - exact (proj2 (build_upload_download_round_trip
                    (mk_Config "curl" "address" (OTHER_PLATFORM "CI"))
                    (mk_Config "curl" "memory" (OTHER_PLATFORM "CI"))
                    "/out" "/tmp/run1" Stub.empty_world
                    (not_elem_of_empty _) eq_refl)).
Defined.

(** X14: against the same filestore, a corpus uploaded for a target is
    downloaded by [download_corpus] for the same target name, whatever the
    configuration of the two deployments, and the download for any other
    target name raises the filestore's error. *)
Theorem corpus_upload_download_round_trip
  (up_config down_config : Config) (t1 t2 src parent_dir : string) (w : World) :
  let uploader := ClusterFuzzLite.mk up_config Stub.recording_filestore in
  let downloader := ClusterFuzzLite.mk down_config Stub.recording_filestore in
  let up := ClusterFuzzLite.upload_corpus uploader t1 src w in
  uploaded_corpus (ClusterFuzzLite._get_corpus_name t2) (trace w) = false →
  fst up = Ret tt
  ∧ fst (ClusterFuzzLite.download_corpus downloader t2 parent_dir (snd up))
    = if String.eqb t1 t2
      then Ret (BaseClusterFuzzDeployment.get_corpus_dir t2 parent_dir)
      else Raise Stub.filestore_error.
Proof.
  intros uploader downloader up Hfresh.
  split; [reflexivity|].
  rewrite Lite_download_corpus_unfold.
  cbn [fst snd trace dirs ClusterFuzzLite.filestore downloader
       Filestore.download_corpus Stub.recording_filestore].
  subst up.
  unfold ClusterFuzzLite.upload_corpus, bind, try_except, call_raising,
    logging.info, logging.debug, os.makedirs, record.
  cbn [fst snd trace dirs ClusterFuzzLite.filestore uploader
       Filestore.upload_corpus Stub.recording_filestore].
  unfold uploaded_corpus in *. rewrite !existsb_app, Hfresh.
  cbn [existsb]. rewrite !orb_false_r, !orb_false_l.
  rewrite corpus_name_eqb.
  by destruct (String.eqb t1 t2).
Qed.

Lemma corpus_upload_download_round_trip_witness :
  let uploader :=
    ClusterFuzzLite.mk Stub.lite_config Stub.recording_filestore in
  let up :=
    ClusterFuzzLite.upload_corpus uploader "fuzz_a" "/out/fuzz_a"
      Stub.empty_world in
  fst (ClusterFuzzLite.download_corpus uploader "fuzz_a" "/tmp/run1" (snd up))
  = Ret "/tmp/run1/cifuzz-corpus/fuzz_a"
  ∧ fst (ClusterFuzzLite.download_corpus uploader "fuzz_b" "/tmp/run1" (snd up))
    = Raise Stub.filestore_error.
Proof.
  intros uploader up. split.
  - exact (proj2 (corpus_upload_download_round_trip Stub.lite_config
                    Stub.lite_config "fuzz_a" "fuzz_a" "/out/fuzz_a"
                    "/tmp/run1" Stub.empty_world eq_refl)).
  - exact (proj2 (corpus_upload_download_round_trip Stub.lite_config
                    Stub.lite_config "fuzz_a" "fuzz_b" "/out/fuzz_a"
                    "/tmp/run1" Stub.empty_world eq_refl)).
Defined.

(** ** Uploads through the factory *)

(** X15: uploads work only on the deployments the factory builds for
    platforms that are not internal.  For [INTERNAL_GENERIC_CI] and
    [INTERNAL_GITHUB] both [upload_latest_build] and [upload_corpus] raise
    on the deployment returned by the factory; for every other platform
    both return. *)
Theorem uploads_by_platform
  (env : Env) (config : Config) (build_dir target_name corpus_dir : string)
  (w : World) :
  let build_upload :=
    fst ((let* d := get_clusterfuzz_deployment env config in
          upload_latest_build d build_dir) w) in
  let corpus_upload :=
    fst ((let* d := get_clusterfuzz_deployment env config in
          upload_corpus d target_name corpus_dir) w) in
  match platform config with
  | INTERNAL_GENERIC_CI | INTERNAL_GITHUB =>
      (∃ msg, build_upload = Raise (mk_exn Exception msg))
      ∧ (∃ msg, corpus_upload = Raise (mk_exn AttributeError msg))
  | OTHER_PLATFORM _ =>
      (∃ ok, build_upload = Ret ok) ∧ corpus_upload = Ret tt
  end.
Proof.
  intros build_upload corpus_upload. subst build_upload corpus_upload.
  unfold get_clusterfuzz_deployment.
  destruct (platform config) as [| |member];
    try (split; eexists; reflexivity).
  rewrite !bool_decide_false by discriminate. cbn [orb].
  unfold bind, ret, logging.info, upload_latest_build, upload_corpus,
    ClusterFuzzLite.upload_latest_build, ClusterFuzzLite.upload_corpus,
    bind, try_except, call, call_raising, logging.info, logging.error.
  split.
  - destruct (Filestore.upload_latest_build _ _ _ _) as [ok dirs'].
    by exists ok.
  - by destruct (Filestore.upload_corpus _ _ _ _) as [[[]|err] dirs'].
Qed.
